(** * Voice-chat session bridge of Travel-Concierge-Server

    A shallow embedding of the session registry of
    [voice_chat/adk_live_handler.py] ([ADKLiveHandler]), of the connection
    handlers of [voice_chat/websocket_server.py] and
    [voice_chat/websocket_adk_bridge.py], and of the transcript consolidator
    of [voice_chat/unified_voice_server.py].

    Modelling conventions.
    - Python dicts are association lists in insertion order (the order a
      Python dict iterates in); [PyDict.set] updates an existing key in place
      and appends a new one; [PyDict.del] removes the key.
    - [time.time()] is an explicit argument [now : Z] (milliseconds).
    - Strings are Stdlib [string]; lengths are [String.length], which is
      Python's [len] on ASCII text.
    - The upstream (ADK) calls never raise: only the paths of the code that
      do not depend on a failing ADK call are modelled. *)

From Stdlib Require Import String Ascii ZArith List Lia Bool Permutation Sorted.
Import ListNotations.
Open Scope string_scope.

(* ------------------------------------------------------------------ *)
(** ** Python dicts as ordered association lists *)

Module PyDict.
Section Dict.
Context {V : Type}.

(** [d.get(k)] *)
Fixpoint get (k : string) (d : list (string * V)) : option V :=
  match d with
  | [] => None
  | (k', v) :: d' => if String.eqb k k' then Some v else get k d'
  end.

(** [d[k] = v]: an existing key keeps its position, a new one is appended. *)
Fixpoint set (k : string) (v : V) (d : list (string * V)) : list (string * V) :=
  match d with
  | [] => [(k, v)]
  | (k', v') :: d' =>
      if String.eqb k k' then (k, v) :: d' else (k', v') :: set k v d'
  end.

(** [del d[k]] (on a dict, whose keys are unique, removing every entry with
    key [k] removes the one entry). *)
Definition del (k : string) (d : list (string * V)) : list (string * V) :=
  filter (fun p => negb (String.eqb (fst p) k)) d.

(** [k in d] *)
Definition mem (k : string) (d : list (string * V)) : bool :=
  match get k d with Some _ => true | None => false end.

Definition keys (d : list (string * V)) : list string := map fst d.

End Dict.
End PyDict.

(* ------------------------------------------------------------------ *)
(** ** [ADKLiveHandler]: the session registry of [adk_live_handler.py] *)

Module ADKLiveHandler.

(** What a [LiveRequestQueue] has been sent: [send_content] (text) and
    [send_realtime] (an audio blob). *)
Inductive live_request :=
| LRContent (text : string)
| LRRealtime (audio : list Byte.byte).

(** The [session_info] dict stored in [active_sessions] (the runner, ADK
    session and live event stream are opaque and omitted; the live request
    queue is the list of what was sent to it and whether it was closed). *)
Record session_info := mk_session_info {
  si_session_id : string;
  si_user_id : string;
  si_created_at : Z;
  si_is_active : bool;
  si_conversation_started : bool;
  si_queue : list live_request;
  si_queue_closed : bool
}.

Record handler := mk_handler {
  active_sessions : list (string * session_info);
  user_sessions : list (string * string);   (** user_id -> session_id *)
  max_sessions : nat
}.

(** [ADKLiveHandler.__init__]: empty maps, [max_sessions = 10]. *)
Definition init_handler : handler := mk_handler [] [] 10.

Definition set_active (b : bool) (i : session_info) : session_info :=
  mk_session_info (si_session_id i) (si_user_id i) (si_created_at i) b
    (si_conversation_started i) (si_queue i) (si_queue_closed i).

Definition push_queue (r : live_request) (i : session_info) : session_info :=
  mk_session_info (si_session_id i) (si_user_id i) (si_created_at i)
    (si_is_active i) (si_conversation_started i) (si_queue i ++ [r])
    (si_queue_closed i).

Definition with_active (h : handler) (a : list (string * session_info)) : handler :=
  mk_handler a (user_sessions h) (max_sessions h).

(** Python truthiness of a [str]. *)
Definition truthy (s : string) : bool := negb (String.eqb s "").

(** [close_session(session_id)]: returns [True] also for an unknown id
    ("Already closed"). For a known id it marks the dict inactive and closes
    its queue (errors swallowed), which only touches the entry it then
    deletes from [active_sessions]; then it deletes [user_sessions[user_id]]
    whenever [user_id] is truthy and present, whatever session it maps to.
    No statement of the body can raise once the entry is found, so the
    [except] branch returning [False] is not reached. *)
Definition close_session (h : handler) (session_id : string) : handler * bool :=
  match PyDict.get session_id (active_sessions h) with
  | None => (h, true)
  | Some info =>
      let a := PyDict.del session_id (active_sessions h) in
      let user_id := si_user_id info in
      let u := if truthy user_id && PyDict.mem user_id (user_sessions h)
               then PyDict.del user_id (user_sessions h)
               else user_sessions h in
      (mk_handler a u (max_sessions h), true)
  end.

(** Stable insertion by [created_at]: after every element whose key is
    [<=] (so that [list.sort] keeps insertion order on ties). *)
Fixpoint insert_by_created (p : string * session_info)
    (l : list (string * session_info)) : list (string * session_info) :=
  match l with
  | [] => [p]
  | q :: l' =>
      if (si_created_at (snd q) <=? si_created_at (snd p))%Z
      then q :: insert_by_created p l'
      else p :: q :: l'
  end.

(** [session_items.sort(key=lambda x: x[1].get('created_at', 0))] *)
Definition sort_by_created (l : list (string * session_info))
    : list (string * session_info) :=
  fold_left (fun acc p => insert_by_created p acc) l [].

(** [_cleanup_old_sessions()]: nothing happens while
    [len(active_sessions) <= max_sessions]; otherwise the
    [len - max_sessions + 1] oldest sessions are closed. *)
Definition _cleanup_old_sessions (h : handler) : handler :=
  let n := length (active_sessions h) in
  if Nat.leb n (max_sessions h) then h
  else
    let items := sort_by_created (active_sessions h) in
    let sessions_to_close := n - max_sessions h + 1 in
    fold_left (fun h' p => fst (close_session h' (fst p)))
      (firstn sessions_to_close items) h.

(** [_send_text_to_session(session_id, text)] *)
Definition _send_text_to_session (h : handler) (session_id text : string)
    : handler * bool :=
  match PyDict.get session_id (active_sessions h) with
  | None => (h, false)
  | Some info =>
      (with_active h (PyDict.set session_id (push_queue (LRContent text) info)
                        (active_sessions h)), true)
  end.

(** The Vietnamese greeting, written here without its diacritics. *)
Definition initial_greeting : string :=
  "Chao ban! Toi la tro ly du lich AI. Hay noi de toi giup ban len ke hoach chuyen di mo uoc!".

(** [create_auto_session(user_id)]. The generated id
    [auto_voice_{user_id}_{int(time.time())}_{uuid4()[:8]}] is the argument
    [session_id]; [now] is [time.time()]. No lookup of an existing session
    of [user_id] is made: [user_sessions[user_id]] is simply overwritten. *)
Definition create_auto_session (h : handler) (session_id user_id : string) (now : Z)
    : handler * option session_info :=
  let h1 := _cleanup_old_sessions h in
  let info := mk_session_info session_id user_id now true true [] false in
  let h2 := mk_handler (PyDict.set session_id info (active_sessions h1))
                       (PyDict.set user_id session_id (user_sessions h1))
                       (max_sessions h1) in
  let h3 := fst (_send_text_to_session h2 session_id initial_greeting) in
  (h3, PyDict.get session_id (active_sessions h3)).

(** [process_audio_input(session_id, audio_data)]: an entry whose
    [is_active] is [False] is set back to [True] ("Try to reactivate"). *)
Definition process_audio_input (h : handler) (session_id : string)
    (audio_data : list Byte.byte) : handler * bool :=
  match PyDict.get session_id (active_sessions h) with
  | None => (h, false)
  | Some info =>
      let info1 := if si_is_active info then info else set_active true info in
      (with_active h (PyDict.set session_id (push_queue (LRRealtime audio_data) info1)
                        (active_sessions h)), true)
  end.

(** [process_text_input(session_id, text)] *)
Definition process_text_input (h : handler) (session_id text : string)
    : handler * bool :=
  match PyDict.get session_id (active_sessions h) with
  | None => (h, false)
  | Some info =>
      (with_active h (PyDict.set session_id (push_queue (LRContent text) info)
                        (active_sessions h)), true)
  end.

(** [get_user_session(user_id)] *)
Definition get_user_session (h : handler) (user_id : string) : option string :=
  PyDict.get user_id (user_sessions h).

(** [cleanup_all_sessions()] *)
Definition cleanup_all_sessions (h : handler) : handler :=
  let h' := fold_left (fun h' sid => fst (close_session h' sid))
              (PyDict.keys (active_sessions h)) h in
  mk_handler [] [] (max_sessions h').

(** [VoiceChatSessionsView.delete] of [voice_chat/views.py]: each entry is
    marked inactive and deleted from [active_sessions]; [user_sessions] is
    left as it is. *)
Definition views_delete_all (h : handler) : handler :=
  fold_left (fun h' sid =>
      match PyDict.get sid (active_sessions h') with
      | None => h'
      | Some i =>
          with_active h' (PyDict.del sid
                            (PyDict.set sid (set_active false i) (active_sessions h')))
      end) (PyDict.keys (active_sessions h)) h.

End ADKLiveHandler.

(* ------------------------------------------------------------------ *)
(** ** Concrete registries used by the examples *)

Module Scenarios.
Import ADKLiveHandler.

(** A registry holding [ids], created in order at times [t], [t+1], ...,
    each for the user ["user_" ++ id]. *)
Fixpoint fill (h : handler) (ids : list string) (t : Z) : handler :=
  match ids with
  | [] => h
  | sid :: rest => fill (fst (create_auto_session h sid ("user_" ++ sid) t)) rest (t + 1)
  end.

Definition ten_ids : list string :=
  ["s0"; "s1"; "s2"; "s3"; "s4"; "s5"; "s6"; "s7"; "s8"; "s9"].

Definition full_registry : handler := fill init_handler ten_ids 0.

End Scenarios.

(* ------------------------------------------------------------------ *)
(** ** [VoiceWebSocketServer] of [websocket_server.py] *)

Module WebSocketServer.
Import ADKLiveHandler.

(** A value returned by [json.loads]. *)
#[warnings="-register-all"]
Inductive json :=
| JNull
| JBool (b : bool)
| JNum (n : Z)
| JStr (s : string)
| JArr (items : list json)
| JObj (fields : list (string * json)).

(** Python truthiness of a JSON value. *)
Definition json_truthy (j : json) : bool :=
  match j with
  | JNull => false
  | JBool b => b
  | JNum n => negb (Z.eqb n 0)
  | JStr s => truthy s
  | JArr l => match l with [] => false | _ => true end
  | JObj f => match f with [] => false | _ => true end
  end.

(** [message.get(key) == s] *)
Definition field_is (f : list (string * json)) (key s : string) : bool :=
  match PyDict.get key f with
  | Some (JStr s') => String.eqb s' s
  | _ => false
  end.

(** An inbound WebSocket frame. *)
Inductive frame :=
| Binary (data : list Byte.byte)
| Text (data : string).

(** What [json.loads] does on a frame: return a value, raise
    [JSONDecodeError], or raise another exception ([RecursionError] on
    deeply nested input such as ['[' * 100000], [UnicodeDecodeError] on
    bytes that are not UTF-8); each exception is given by its [str]. *)
Inductive loads_result :=
| Loaded (value : json)
| DecodeError (msg : string)
| OtherError (msg : string).

(** The name of the Python type [json.loads] gives a JSON value. *)
Definition py_type_name (j : json) : string :=
  match j with
  | JNull => "NoneType"
  | JBool _ => "bool"
  | JNum _ => "int"
  | JStr _ => "str"
  | JArr _ => "list"
  | JObj _ => "dict"
  end.

(** [str] of the [AttributeError] raised by [value.attr] when the value's
    type has no such attribute. *)
Definition attribute_error (j : json) (attr : string) : string :=
  "'" ++ py_type_name j ++ "' object has no attribute '" ++ attr ++ "'".

(** The JSON messages [send_message] writes to the client. *)
Inductive ws_out :=
| WsConnectionEstablished (client_id : string)
| WsAutoSessionStarted (session_id user_id : string)
| WsPong (timestamp : Z)
| WsStatusResponse (total_sessions : nat) (current_session : option string)
| WsSessionStopped (session_id : string)
| WsError (message : string).

(** The connection: the handler and [websocket_sessions[websocket]], which
    is also the local [session_id] of [handle_client]. *)
Record conn := mk_conn {
  c_handler : handler;
  c_session : option string
}.

(** [handle_stop_session]: the entry [websocket_sessions[websocket]] is
    not removed, and every successful [close_session] is reported. *)
Definition handle_stop_session (c : conn) : conn * list ws_out :=
  match c_session c with
  | None => (c, [WsError "No active session to stop"])
  | Some sid =>
      let (h', ok) := close_session (c_handler c) sid in
      if ok then (mk_conn h' (c_session c), [WsSessionStopped sid])
      else (mk_conn h' (c_session c), [WsError "Failed to stop session"])
  end.

(** [handle_get_status]; [current_session] is [get_session_status], shown
    here by the id it reports. *)
Definition handle_get_status (c : conn) : conn * list ws_out :=
  let cur := match c_session c with
             | None => None
             | Some sid => match PyDict.get sid (active_sessions (c_handler c)) with
                           | Some _ => Some sid | None => None end
             end in
  (c, [WsStatusResponse (length (active_sessions (c_handler c))) cur]).

(** [handle_text_input]. A truthy [text] that is not a string makes
    [types.Part(text=...)] fail inside [process_text_input], which then
    returns [False]. *)
Definition handle_text_input (c : conn) (f : list (string * json)) : conn * list ws_out :=
  match c_session c with
  | None => (c, [WsError "No active session for text input"])
  | Some sid =>
      let text := match PyDict.get "text" f with Some v => v | None => JStr "" end in
      if negb (json_truthy text) then (c, [WsError "No text in message"])
      else match text with
           | JStr s =>
               let (h', ok) := process_text_input (c_handler c) sid s in
               (mk_conn h' (c_session c),
                if ok then [] else [WsError "Failed to process text input"])
           | _ => (c, [WsError "Failed to process text input"])
           end
  end.

Section Frames.
(** [json.loads] on a text frame. *)
Variable json_loads : string -> loads_result.
(** [base64.b64decode] on a JSON value: the bytes, or the [str] of the
    exception it raises (also for a value that is not a string). *)
Variable b64decode : json -> list Byte.byte + string.

(** [handle_json_audio_message]; a failure of [process_audio_input] is not
    reported to the client. *)
Definition handle_json_audio_message (c : conn) (f : list (string * json))
    : conn * list ws_out :=
  match c_session c with
  | None => (c, [WsError "No active session for audio data"])
  | Some sid =>
      match PyDict.get "data" f with
      | None => (c, [WsError "No audio data in message"])
      | Some d =>
          if negb (json_truthy d) then (c, [WsError "No audio data in message"])
          else match b64decode d with
               | inl audio =>
                   (mk_conn (fst (process_audio_input (c_handler c) sid audio))
                            (c_session c), [])
               | inr e => (c, [WsError ("JSON audio processing error: " ++ e)])
               end
      end
  end.

(** [handle_text_message]; [inr e] when an exception escapes to
    [handle_client], with its [str]: [message.get] on a value that is not
    a dict, or [.startswith] on a [mime_type] that is not a string. *)
Definition handle_text_message (c : conn) (message : json) (now : Z)
    : (conn * list ws_out) + string :=
  match message with
  | JObj f =>
      if field_is f "type" "ping" then inl (c, [WsPong now])
      else if field_is f "type" "get_status" then inl (handle_get_status c)
      else if field_is f "type" "stop_session" then inl (handle_stop_session c)
      else if field_is f "type" "text_input" then inl (handle_text_input c f)
      else match PyDict.get "mime_type" f with
           | None => inl (c, [])
           | Some (JStr m) =>
               if String.prefix "audio/pcm" m
               then inl (handle_json_audio_message c f)
               else inl (c, [])
           | Some v => inr (attribute_error v "startswith")
           end
  | _ => inr (attribute_error message "get")
  end.

(** [handle_audio_data] *)
Definition handle_audio_data (c : conn) (audio : list Byte.byte) : conn * list ws_out :=
  match c_session c with
  | None => (c, [WsError "No active session for audio data"])
  | Some sid => (mk_conn (fst (process_audio_input (c_handler c) sid audio)) (c_session c), [])
  end.

(** One iteration of [async for message in websocket] in [handle_client],
    with its [try]/[except json.JSONDecodeError]/[except Exception]. *)
Definition handle_frame (c : conn) (tf : Z * frame) : conn * list ws_out :=
  let (now, fr) := tf in
  match fr with
  | Binary b => handle_audio_data c b
  | Text s =>
      match json_loads s with
      | DecodeError e => (c, [WsError ("Invalid JSON: " ++ e)])
      | OtherError e => (c, [WsError ("Processing error: " ++ e)])
      | Loaded j =>
          match handle_text_message c j now with
          | inl r => r
          | inr e => (c, [WsError ("Processing error: " ++ e)])
          end
      end
  end.

Fixpoint handle_frames (c : conn) (frames : list (Z * frame)) : conn * list ws_out :=
  match frames with
  | [] => (c, [])
  | tf :: rest =>
      let (c1, o1) := handle_frame c tf in
      let (c2, o2) := handle_frames c1 rest in
      (c2, (o1 ++ o2)%list)
  end.

(** [handle_client]: welcome message, automatic session, the frame loop,
    and [cleanup_connection] in [finally]. *)
Definition handle_client (h : handler) (client_id user_id session_id : string) (now : Z)
    (frames : list (Z * frame)) : handler * list ws_out :=
  let out0 := [WsConnectionEstablished client_id] in
  let (h1, created) := create_auto_session h session_id user_id now in
  match created with
  | None => (h1, (out0 ++ [WsError "Failed to initialize voice session"])%list)
  | Some info =>
      let sid := si_session_id info in
      let (c, o) := handle_frames (mk_conn h1 (Some sid)) frames in
      (fst (close_session (c_handler c) sid),
       (out0 ++ WsAutoSessionStarted sid user_id :: o)%list)
  end.

End Frames.
End WebSocketServer.

(* ------------------------------------------------------------------ *)
(** ** The receive loop of [WebSocketADKBridge.handle_client]
    ([websocket_adk_bridge.py]) *)

Module ADKBridge.
Import WebSocketServer.

(** The [error] message [_send_error] writes, or any other message. *)
Inductive bridge_out :=
| BridgeError (message : string)
| BridgeMessage (payload : json).

Section Loop.
(** The bridge's session table and per-message dispatch [_handle_message]
    are parameters: [None] means that an exception other than
    [JSONDecodeError] escaped, which ends the [async for] loop. *)
Variable bstate : Type.
Variable bridge_loads : frame -> loads_result.
Variable _handle_message : bstate -> json -> option (bstate * list bridge_out).

(** [async for message in websocket: try: data = json.loads(message); await
    self._handle_message(websocket, data) except json.JSONDecodeError: ...].
    The boolean is [True] when the loop was left by an exception: one
    raised by [_handle_message], or one of [json.loads] other than
    [JSONDecodeError]. *)
Fixpoint bridge_loop (st : bstate) (frames : list frame)
    : bstate * list bridge_out * bool :=
  match frames with
  | [] => (st, [], false)
  | f :: rest =>
      match bridge_loads f with
      | DecodeError _ =>
          let '(st', o, t) := bridge_loop st rest in
          (st', BridgeError "Invalid JSON format" :: o, t)
      | OtherError _ => (st, [], true)
      | Loaded data =>
          match _handle_message st data with
          | None => (st, [], true)
          | Some (st1, o1) =>
              let '(st2, o2, t) := bridge_loop st1 rest in
              (st2, (o1 ++ o2)%list, t)
          end
      end
  end.

End Loop.
End ADKBridge.

(* ------------------------------------------------------------------ *)
(** ** Concrete connections used by the examples *)

Module ServerScenarios.
Import ADKLiveHandler WebSocketServer ADKBridge.

(** A registry with one session ["s1"] of user ["alice"]. *)
Definition alice_registry : handler :=
  fst (create_auto_session init_handler "s1" "alice" 1).

Definition stop_message : json := JObj [("type", JStr "stop_session")].
Definition ping_message : json := JObj [("type", JStr "ping")].

(** A stand-in for [json.loads]: ["{bad"] raises [JSONDecodeError],
    ["deep"] stands for ['[' * 100000], on which it raises
    [RecursionError], ["ping"] stands for the ping message, anything else
    for [null]. *)
Definition toy_loads (s : string) : loads_result :=
  if String.eqb s "{bad" then DecodeError "Expecting property name enclosed in double quotes"
  else if String.eqb s "deep" then OtherError "maximum recursion depth exceeded while decoding a JSON array from a unicode string"
  else if String.eqb s "ping" then Loaded ping_message
  else Loaded JNull.

Definition toy_b64decode (_ : json) : list Byte.byte + string := inr "Incorrect padding".



End ServerScenarios.

(* ------------------------------------------------------------------ *)
(** ** The operations a registry goes through *)

Module Lifecycle.
Import ADKLiveHandler.

(** Every public entry point of [ADKLiveHandler] that changes
    [active_sessions], and the admin [DELETE] of [views.py]. *)
Inductive op :=
| OpCreate (session_id user_id : string) (now : Z)
| OpClose (session_id : string)
| OpAudio (session_id : string) (audio : list Byte.byte)
| OpText (session_id text : string)
| OpCleanupAll
| OpViewsDelete.

Definition apply_op (h : handler) (o : op) : handler :=
  match o with
  | OpCreate sid uid now => fst (create_auto_session h sid uid now)
  | OpClose sid => fst (close_session h sid)
  | OpAudio sid b => fst (process_audio_input h sid b)
  | OpText sid t => fst (process_text_input h sid t)
  | OpCleanupAll => cleanup_all_sessions h
  | OpViewsDelete => views_delete_all h
  end.

(** The ids generated so far; a generated id
    [auto_voice_{user}_{time}_{uuid4()[:8]}] is taken to be new. *)
Definition issued_after (o : op) (issued : list string) : list string :=
  match o with OpCreate sid _ _ => sid :: issued | _ => issued end.

Definition op_fresh (o : op) (issued : list string) : Prop :=
  match o with OpCreate sid _ _ => ~ In sid issued | _ => True end.

Definition op_creates (o : op) (s : string) : Prop :=
  match o with OpCreate sid _ _ => sid = s | _ => False end.

(** The registries reachable from [ADKLiveHandler()], with the ids issued. *)
Inductive reachable : list string -> handler -> Prop :=
| reach_init : reachable [] init_handler
| reach_step issued h o :
    reachable issued h -> op_fresh o issued ->
    reachable (issued_after o issued) (apply_op h o).

(** A session is Active while it is registered with [is_active = True]. *)
Definition active_in (h : handler) (sid : string) : Prop :=
  exists i, PyDict.get sid (active_sessions h) = Some i /\ si_is_active i = true.

End Lifecycle.

(* ------------------------------------------------------------------ *)
(** ** The transcript consolidator of [unified_voice_server.py] *)

Module UnifiedVoiceServer.

(** Python's [str.strip()] on ASCII text: tab, newline, vertical tab, form
    feed, carriage return, the separators 0x1c..0x1f and space. *)
Definition is_py_space (c : ascii) : bool :=
  let n := nat_of_ascii c in
  (Nat.leb 9 n && Nat.leb n 13) || (Nat.leb 28 n && Nat.leb n 32).

Fixpoint drop_spaces (l : list ascii) : list ascii :=
  match l with
  | [] => []
  | c :: l' => if is_py_space c then drop_spaces l' else l
  end.

Definition py_strip (s : string) : string :=
  string_of_list_ascii
    (rev (drop_spaces (rev (drop_spaces (list_ascii_of_string s))))).

(** Python's [needle in hay] on strings. *)
Fixpoint contains (hay needle : string) : bool :=
  String.prefix needle hay ||
  match hay with
  | EmptyString => false
  | String _ hay' => contains hay' needle
  end.

(** A buffered transcript chunk [{'text', 'timestamp', 'length'}]. *)
Record chunk := mk_chunk {
  c_text : string;
  c_timestamp : Z;
  c_length : nat
}.

(** The consolidator fields of [active_sessions[session_id]]. The timer is
    the deadline of the pending [consolidate_and_send] task, [None] when no
    task is pending (never created, cancelled, or already run). *)
Record usession := mk_usession {
  transcript_buffer : list chunk;
  last_transcript : string;
  last_chunk_time : Z;
  consolidation_timer : option Z
}.

(** Times are in milliseconds: [asyncio.sleep(1.5)] and the 10 s window. *)
Definition consolidation_delay : Z := 1500.
Definition buffer_window : Z := 10000.

(** [process_transcript_with_buffering(websocket, session_id, text)]:
    cancel the pending task, append the chunk, keep the chunks of the last
    10 s, start a new task. [None] is a session no longer registered. *)
Definition process_transcript_with_buffering (s : option usession) (now : Z)
    (transcript_text : string) : option usession :=
  match s with
  | None => None
  | Some sd =>
      let buf := (transcript_buffer sd ++
                  [mk_chunk transcript_text now (String.length transcript_text)])%list in
      let buf' := filter (fun c => (now - c_timestamp c <? buffer_window)%Z) buf in
      Some (mk_usession buf' (last_transcript sd) now (Some (now + consolidation_delay)%Z))
  end.

(** Python's [max(l, key=key)]: the first element of maximal key. *)
Definition py_max (key : chunk -> Z) (l : list chunk) : option chunk :=
  match l with
  | [] => None
  | x :: xs => Some (fold_left (fun best y => if (key best <? key y)%Z then y else best) xs x)
  end.

(** Steps b and c of [consolidate_and_send]. The test
    [most_recent_long['length'] >= len(longest) * 0.8] is written
    [4 * len(longest) <= 5 * length]; the product [len * 0.8] rounds to the
    same comparison for every string length below 2^50. *)
Definition select_candidate (buf : list chunk) : option string :=
  match py_max (fun c => Z.of_nat (c_length c)) buf with
  | None => None
  | Some m =>
      let longest := c_text m in
      let recent_long := filter (fun c => Nat.ltb 50 (c_length c)) buf in
      match py_max c_timestamp recent_long with
      | None => Some longest
      | Some r =>
          if Nat.leb (4 * String.length longest) (5 * c_length r)
          then Some (c_text r) else Some longest
      end
  end.

(** Outbound messages of [unified_voice_server.py]. *)
Inductive uout :=
| UTranscript (data : string)
| UAudioChunk (data : list Byte.byte)   (** sent base64-encoded *)
| UTurnComplete
| UInterrupted.

(** The body of [consolidate_and_send] after its [asyncio.sleep(1.5)]
    (the send to the client succeeds). *)
Definition consolidate_and_send (s : option usession) : option usession * list uout :=
  match s with
  | None => (None, [])
  | Some sd =>
      let last_sent := last_transcript sd in
      let cleared := mk_usession [] last_sent (last_chunk_time sd) None in
      match select_candidate (transcript_buffer sd) with
      | None =>
          (Some (mk_usession (transcript_buffer sd) last_sent (last_chunk_time sd) None), [])
      | Some longest =>
          if String.eqb longest last_sent then (Some cleared, [])
          else if ADKLiveHandler.truthy last_sent && contains last_sent longest
          then (Some cleared, [])
          else (Some (mk_usession [] longest (last_chunk_time sd) None), [UTranscript longest])
      end
  end.

(** A part of an ADK event's content. *)
Inductive part :=
| PText (text : string)
| PInline (data : list Byte.byte)
| PNone.

(** An ADK event: its content parts and the [turn_complete] and
    [interrupted] flags of [event.actions.state_delta]. *)
Record adk_event := mk_event {
  ev_parts : list part;
  ev_turn_complete : bool;
  ev_interrupted : bool
}.

(** The loop body of [listen_to_adk] for one part. *)
Definition handle_part (s : option usession) (now : Z) (p : part)
    : option usession * list (Z * uout) :=
  match p with
  | PText t =>
      if ADKLiveHandler.truthy t then
        let transcript_text := py_strip t in
        if Nat.ltb (String.length transcript_text) 2 then (s, [])
        else (process_transcript_with_buffering s now transcript_text, [])
      else (s, [])
  | PInline d => (s, [(now, UAudioChunk d)])
  | PNone => (s, [])
  end.

Fixpoint handle_parts (s : option usession) (now : Z) (ps : list part)
    : option usession * list (Z * uout) :=
  match ps with
  | [] => (s, [])
  | p :: ps' =>
      let (s1, o1) := handle_part s now p in
      let (s2, o2) := handle_parts s1 now ps' in
      (s2, (o1 ++ o2)%list)
  end.

(** One event of [runner.run_live] in [listen_to_adk]: the parts, then
    [turn_complete] and [interrupted], which are only forwarded. *)
Definition handle_event (s : option usession) (now : Z) (ev : adk_event)
    : option usession * list (Z * uout) :=
  let (s1, o1) := handle_parts s now (ev_parts ev) in
  (s1, (o1 ++ (if ev_turn_complete ev then [(now, UTurnComplete)] else [])
           ++ (if ev_interrupted ev then [(now, UInterrupted)] else []))%list).

(** What happens to the session at a point of time: an upstream event,
    or the [finally] of [websocket_endpoint], which cancels the pending
    task, closes the queue and deletes the session. *)
Inductive uinput :=
| Upstream (ev : adk_event)
| SessionEnd.

Definition handle_input (s : option usession) (now : Z) (i : uinput)
    : option usession * list (Z * uout) :=
  match i with
  | Upstream ev => handle_event s now ev
  | SessionEnd => (None, [])
  end.

(** Run the pending task if its deadline is not later than [t]. The task
    runs to its end in one step: [await websocket.send_text] is taken not
    to pause long enough for a text part to cancel the task between the
    send and the update of [last_transcript]. *)
Definition fire_due (s : option usession) (t : Z) : option usession * list (Z * uout) :=
  match s with
  | Some sd =>
      match consolidation_timer sd with
      | Some d =>
          if (d <=? t)%Z then
            let (s', o) := consolidate_and_send s in (s', map (pair d) o)
          else (s, [])
      | None => (s, [])
      end
  | None => (s, [])
  end.

Definition step (s : option usession) (ti : Z * uinput) : option usession * list (Z * uout) :=
  let (t, i) := ti in
  let (s1, o1) := fire_due s t in
  let (s2, o2) := handle_input s1 t i in
  (s2, (o1 ++ o2)%list).

Fixpoint run (s : option usession) (l : list (Z * uinput)) : option usession * list (Z * uout) :=
  match l with
  | [] => (s, [])
  | ti :: l' =>
      let (s1, o1) := step s ti in
      let (s2, o2) := run s1 l' in
      (s2, (o1 ++ o2)%list)
  end.

(** After the last input, the pending task (if any) runs at its deadline. *)
Definition quiesce (s : option usession) : option usession * list (Z * uout) :=
  match s with
  | Some sd =>
      match consolidation_timer sd with
      | Some d => fire_due s d
      | None => (s, [])
      end
  | None => (s, [])
  end.

Definition run_all (s : option usession) (l : list (Z * uinput)) : option usession * list (Z * uout) :=
  let (s1, o1) := run s l in
  let (s2, o2) := quiesce s1 in
  (s2, (o1 ++ o2)%list).

(** The session dict stored by [websocket_endpoint]. *)
Definition fresh_session (now : Z) : option usession := Some (mk_usession [] "" now None).

Definition text_event (t : string) : adk_event := mk_event [PText t] false false.
Definition audio_event (d : list Byte.byte) : adk_event := mk_event [PInline d] false false.
Definition turn_complete_event : adk_event := mk_event [] true false.

(** The script [TextDelta("Hi"), TextDelta("Hi there"), AudioDelta,
    TurnComplete], 100 ms apart. *)
Definition hi_script : list (Z * uinput) :=
  [(0, Upstream (text_event "Hi")); (100, Upstream (text_event "Hi there"));
   (200, Upstream (audio_event [Byte.x01; Byte.x02])); (300, Upstream turn_complete_event)]%Z.

Definition repeat_char (n : nat) (c : ascii) : string :=
  string_of_list_ascii (repeat c n).

End UnifiedVoiceServer.

(* ------------------------------------------------------------------ *)
(** ** Cumulative streaming of TextDelta fragments *)

Module Streaming.
Import UnifiedVoiceServer.

(** Each fragment extends the previous one strictly and arrives strictly
    after it and less than 1.5 s after it. *)
Fixpoint cumulative_timely (l : list (Z * string)) : Prop :=
  match l with
  | (t1, f1) :: (((t2, f2) :: _) as rest) =>
      (t1 < t2 < t1 + consolidation_delay)%Z /\ String.prefix f1 f2 = true /\
      f1 <> f2 /\ cumulative_timely rest
  | _ => True
  end.

(** A fragment [listen_to_adk] hands to the consolidator unchanged: it has
    no surrounding white space and at least two characters. *)
Definition delivered (f : string) : Prop :=
  py_strip f = f /\ (2 <= String.length f)%nat.

Definition text_inputs (l : list (Z * string)) : list (Z * uinput) :=
  map (fun p => (fst p, Upstream (text_event (snd p)))) l.

End Streaming.

(* ------------------------------------------------------------------ *)
(** ** [WebSocketADKBridge] and [VoiceChatSession] of
    [websocket_adk_bridge.py] *)

Module BridgeServer.
Import ADKLiveHandler WebSocketServer ADKBridge.

(** A [VoiceChatSession]: its ids, [is_active], and the audio blobs its
    [live_request_queue] was sent by [process_audio]. The runner, the ADK
    session and the response task are opaque and omitted. *)
Record voice_session := mk_voice_session {
  vs_session_id : string;
  vs_user_id : json;
  vs_is_active : bool;
  vs_queue : list (list Byte.byte)
}.

(** The bridge as one connection sees it: [active_sessions],
    [websocket_to_session[websocket]] ([None] when absent), and the number
    of [_initialize_session] calls so far, which indexes the generated ids. *)
Record bridge := mk_bridge {
  b_sessions : list (string * voice_session);
  b_ws_session : option string;
  b_counter : nat
}.

Definition empty_bridge : bridge := mk_bridge [] None 0.

Definition msg (ty : string) (fields : list (string * json)) : bridge_out :=
  BridgeMessage (JObj (("type", JStr ty) :: fields)).

Section Bridge.
(** The [n]-th [f"user_{uuid.uuid4().hex[:8]}"] and the [n]-th
    [f"auto_voice_voice_{user_id}_{timestamp}_{uuid.uuid4().hex[:8]}"]. *)
Variable gen_user_id : nat -> string.
Variable gen_session_id : json -> nat -> string.
(** [base64.b64decode] on a JSON value: the bytes, or the text of the
    exception it raises (also for a value that is not a string). *)
Variable b64decode : json -> list Byte.byte + string.

(** [VoiceChatSession.start_streaming]: [is_active = True] and the two
    messages [send_to_client] writes (the socket is open). *)
Definition start_streaming_msgs (sid : string) (user : json) : list bridge_out :=
  [msg "connection_established"
     [("session_id", JStr sid);
      ("audio_config", JObj [("input_sample_rate", JNum 16000);
                             ("output_sample_rate", JNum 24000);
                             ("format", JStr "audio/pcm")])];
   msg "auto_session_started" [("session_id", JStr sid); ("user_id", user)]].

(** [_initialize_session(websocket, data)]: the default [user_id] is
    computed whether or not [data] has one; [initialize()] succeeds. *)
Definition init_user_id (data : list (string * json)) (n : nat) : json :=
  match PyDict.get "user_id" data with
  | Some v => v | None => JStr ("user_" ++ gen_user_id n) end.

Definition _initialize_session (st : bridge) (data : list (string * json))
    : bridge * list bridge_out :=
  let n := b_counter st in
  let user_id := init_user_id data n in
  let sid := gen_session_id user_id n in
  let vs := mk_voice_session sid user_id true [] in
  (mk_bridge (PyDict.set sid vs (b_sessions st)) (Some sid) (S n),
   start_streaming_msgs sid user_id).

(** [VoiceChatSession.process_audio]: nothing once [is_active] is
    [False]. *)
Definition process_audio (vs : voice_session) (audio : list Byte.byte) : voice_session :=
  if vs_is_active vs then
    mk_voice_session (vs_session_id vs) (vs_user_id vs) (vs_is_active vs) (vs_queue vs ++ [audio])
  else vs.

(** The part shared by [_handle_audio_data] and [_handle_audio_message]
    once the session is known: [data.get(key)], decoded and forwarded when
    truthy. *)
Definition forward_audio (st : bridge) (key : string) (data : list (string * json))
    : bridge * list bridge_out :=
  match b_ws_session st with
  | None => (st, [BridgeError "No active session"])
  | Some sid =>
      match (if truthy sid then PyDict.get sid (b_sessions st) else None) with
      | None => (st, [BridgeError "No active session"])
      | Some vs =>
          match PyDict.get key data with
          | Some a =>
              if json_truthy a then
                match b64decode a with
                | inl audio =>
                    (mk_bridge (PyDict.set sid (process_audio vs audio) (b_sessions st))
                               (b_ws_session st) (b_counter st), [])
                | inr e => (st, [BridgeError ("Audio processing failed: " ++ e)])
                end
              else (st, [])
          | None => (st, [])
          end
      end
  end.

(** [_handle_audio_data]: a connection without a session first gets one
    from [_initialize_session(websocket, {})]. *)
Definition _handle_audio_data (st : bridge) (data : list (string * json))
    : bridge * list bridge_out :=
  let (st1, o1) := match b_ws_session st with
                   | None => _initialize_session st []
                   | Some _ => (st, [])
                   end in
  let (st2, o2) := forward_audio st1 "data" data in
  (st2, (o1 ++ o2)%list).

(** [_handle_audio_message] *)
Definition _handle_audio_message (st : bridge) (data : list (string * json))
    : bridge * list bridge_out :=
  forward_audio st "audio_data" data.

(** [_handle_message]: [data.get('type')] raises on a value that is not a
    dict ([None]); a falsy type is legacy audio; an unknown type is only
    logged. *)
Definition _handle_message (st : bridge) (data : json) : option (bridge * list bridge_out) :=
  match data with
  | JObj f =>
      let message_type := match PyDict.get "type" f with Some v => v | None => JNull end in
      if negb (json_truthy message_type) then Some (_handle_audio_data st f)
      else if field_is f "type" "initialize_session" then Some (_initialize_session st f)
      else if field_is f "type" "audio_data" then Some (_handle_audio_message st f)
      else Some (st, [])
  | _ => None
  end.

(** [_cleanup_session(websocket, session_id)]: [stop()] sets [is_active]
    to [False] and sends [session_stopped] when the socket is still open;
    the session and the connection's mapping are deleted. *)
Definition _cleanup_session (st : bridge) (sid : string) (socket_open : bool)
    : bridge * list bridge_out :=
  match PyDict.get sid (b_sessions st) with
  | Some _ =>
      (mk_bridge (PyDict.del sid (b_sessions st)) None (b_counter st),
       if socket_open then [msg "session_stopped" [("session_id", JStr sid)]] else [])
  | None => (mk_bridge (b_sessions st) None (b_counter st), [])
  end.

Section Client.
Variable loads : frame -> loads_result.

(** [WebSocketADKBridge.handle_client]: the receive loop, then the
    [finally]. The loop ends when the client disconnects (the socket is
    closed) or when an exception escapes (the socket is still open). *)
Definition bridge_handle_client (st : bridge) (frames : list frame)
    : bridge * list bridge_out :=
  let '(st1, o, escaped) := bridge_loop bridge loads _handle_message st frames in
  match b_ws_session st1 with
  | Some sid => let (st2, o2) := _cleanup_session st1 sid escaped in (st2, (o ++ o2)%list)
  | None => (st1, o)
  end.
End Client.
End Bridge.

(** Concrete generators and decoders for the examples. *)
Definition toy_user_id (n : nat) : string := string_of_list_ascii [ascii_of_nat (97 + n)].
Definition toy_session_id (_ : json) (n : nat) : string :=
  "auto_voice_voice_" ++ string_of_list_ascii (repeat "x"%char n).
Definition toy_b64 (j : json) : list Byte.byte + string :=
  match j with
  | JStr "AAE=" => inl [Byte.x00; Byte.x01]
  | JStr _ => inr "Incorrect padding"
  | _ => inr "argument should be a bytes-like object or ASCII string"
  end.
(** ["deep"] stands for ['[' * 100000]. *)
Definition toy_frame_loads (f : frame) : loads_result :=
  match f with
  | Text "init" => Loaded (JObj [("type", JStr "initialize_session")])
  | Text "audio" => Loaded (JObj [("data", JStr "AAE=")])
  | Text "five" => Loaded (JNum 5)
  | Text "deep" => OtherError "maximum recursion depth exceeded while decoding a JSON array from a unicode string"
  | Text _ => DecodeError "Expecting value"
  | Binary _ => DecodeError "Expecting value"
  end.

End BridgeServer.

(* ------------------------------------------------------------------ *)
(** ** What the consolidator sends *)

Module ConsolidatorOutput.
Import UnifiedVoiceServer.

(** The texts of the [transcript] messages, in order. *)
Fixpoint transcripts (o : list (Z * uout)) : list string :=
  match o with
  | [] => []
  | (_, UTranscript x) :: o' => x :: transcripts o'
  | _ :: o' => transcripts o'
  end.

(** The stripped texts of the text parts of the upstream events. *)
Definition part_texts (p : part) : list string :=
  match p with PText t => [py_strip t] | _ => [] end.

Definition received_texts (l : list (Z * uinput)) : list string :=
  flat_map (fun ti => match snd ti with
                      | Upstream ev => flat_map part_texts (ev_parts ev)
                      | SessionEnd => []
                      end) l.

End ConsolidatorOutput.

(* ------------------------------------------------------------------ *)
(** ** Auxiliary notions used by the proofs *)

Module Auxiliary.
Import ADKLiveHandler WebSocketServer.

(** The fold of [_cleanup_old_sessions]: closing the given sessions in turn. *)
Definition close_all (L : list (string * session_info)) (h : handler) : handler :=
  fold_left (fun h' p => fst (close_session h' (fst p))) L h.

(** The order [session_items.sort] puts the sessions in. *)
Definition older (a b : string * session_info) : Prop :=
  (si_created_at (snd a) <= si_created_at (snd b))%Z.

(** A connection [c'] obtained from [c]: the connection keeps its session
    id, and every other session has its former entry. *)
Definition keeps (sid : string) (c c' : conn) : Prop :=
  c_session c' = c_session c /\
  forall s, s <> sid -> PyDict.get s (active_sessions (c_handler c')) = PyDict.get s (active_sessions (c_handler c)).


(** A JSON audio message as the Flutter client sends it. *)
Definition json_audio_fields : list (string * json) :=
  [("mime_type", JStr "audio/pcm;rate=16000"); ("data", JStr "AAE=")].

End Auxiliary.

Module ConsolidatorAux.
Import UnifiedVoiceServer ConsolidatorOutput.

(** Every buffered chunk holds one of the texts [S]. *)
Definition buffer_from (s : option usession) (S : list string) : Prop :=
  match s with
  | Some sd => forall c, In c (transcript_buffer sd) -> In (c_text c) S
  | None => True
  end.

(** The stripped texts of the text parts of one input. *)
Definition input_texts (i : uinput) : list string :=
  match i with
  | Upstream ev => flat_map part_texts (ev_parts ev)
  | SessionEnd => []
  end.

End ConsolidatorAux.

(* ================================================================== *)
(** * Proofs *)

Module PyDictFacts.
Section Facts.
Context {V : Type}.
Import PyDict.

Lemma get_set_eq (k : string) (v : V) (d : list (string * V)) : get k (set k v d) = Some v.
Proof.
  induction d as [|[k' v'] d IH]; simpl.
  - rewrite String.eqb_refl; reflexivity.
  - destruct (String.eqb k k') eqn:E; simpl.
    + rewrite String.eqb_refl; reflexivity.
    + rewrite E; exact IH.
Qed.

Lemma get_set_neq (k k2 : string) (v : V) (d : list (string * V)) : k2 <> k -> get k2 (set k v d) = get k2 d.
Proof.
  intros Hne; induction d as [|[k' v'] d IH]; simpl.
  - apply String.eqb_neq in Hne; rewrite Hne; reflexivity.
  - destruct (String.eqb k k') eqn:E; simpl.
    + apply String.eqb_eq in E; subst k'.
      apply String.eqb_neq in Hne; rewrite Hne; reflexivity.
    + destruct (String.eqb k2 k'); [reflexivity | exact IH].
Qed.

Lemma get_del_eq (k : string) (d : list (string * V)) : get k (del k d) = None.
Proof.
  unfold del; induction d as [|[k' v'] d IH]; simpl; [reflexivity|].
  destruct (String.eqb k' k) eqn:E; simpl; [exact IH|].
  rewrite String.eqb_sym, E; exact IH.
Qed.

Lemma get_del_neq (k k2 : string) (d : list (string * V)) : k2 <> k -> get k2 (del k d) = get k2 d.
Proof.
  intros Hne; unfold del; induction d as [|[k' v'] d IH]; simpl; [reflexivity|].
  destruct (String.eqb k' k) eqn:E; simpl.
  - apply String.eqb_eq in E; subst k'.
    apply String.eqb_neq in Hne; rewrite Hne; exact IH.
  - destruct (String.eqb k2 k'); [reflexivity | exact IH].
Qed.

Lemma length_set_new (k : string) (v : V) (d : list (string * V)) : get k d = None -> length (set k v d) = S (length d).
Proof.
  induction d as [|[k' v'] d IH]; simpl; [reflexivity|].
  destruct (String.eqb k k'); [discriminate|].
  intros H; simpl; f_equal; exact (IH H).
Qed.

End Facts.
End PyDictFacts.

(* ------------------------------------------------------------------ *)
(** ** Facts about the registry *)

Module RegistryFacts.
Import ADKLiveHandler Scenarios.

Example full_registry_size : length (active_sessions full_registry) = 10%nat.
Proof. reflexivity. Qed.

Example full_registry_eleven :
  PyDict.keys (active_sessions (fst (create_auto_session full_registry "s10" "user_s10" 10)))
  = (ten_ids ++ ["s10"])%list.
Proof. reflexivity. Qed.

Example twelfth_evicts_two :
  PyDict.keys (active_sessions
    (fst (create_auto_session
       (fst (create_auto_session full_registry "s10" "user_s10" 10)) "s11" "user_s11" 11)))
  = ["s2"; "s3"; "s4"; "s5"; "s6"; "s7"; "s8"; "s9"; "s10"; "s11"].
Proof. reflexivity. Qed.

Lemma get_del_some {V} k s (d : list (string * V)) v :
  PyDict.get s (PyDict.del k d) = Some v -> PyDict.get s d = Some v.
Proof.
  destruct (String.eqb_spec s k) as [->|Hne].
  - rewrite PyDictFacts.get_del_eq; discriminate.
  - rewrite PyDictFacts.get_del_neq by exact Hne; exact id.
Qed.

Lemma cleanup_noop h :
  (length (active_sessions h) <= max_sessions h)%nat -> _cleanup_old_sessions h = h.
Proof.
  intros H; unfold _cleanup_old_sessions.
  apply Nat.leb_le in H; rewrite H; reflexivity.
Qed.

Lemma send_text_get h sid text s :
  s <> sid ->
  PyDict.get s (active_sessions (fst (_send_text_to_session h sid text)))
  = PyDict.get s (active_sessions h).
Proof.
  intros Hne; unfold _send_text_to_session.
  destruct (PyDict.get sid (active_sessions h)); simpl; [|reflexivity].
  apply PyDictFacts.get_set_neq; congruence.
Qed.

Lemma send_text_users h sid text :
  user_sessions (fst (_send_text_to_session h sid text)) = user_sessions h.
Proof.
  unfold _send_text_to_session; destruct (PyDict.get sid (active_sessions h)); reflexivity.
Qed.

Lemma send_text_self h sid text i :
  PyDict.get sid (active_sessions h) = Some i ->
  PyDict.get sid (active_sessions (fst (_send_text_to_session h sid text)))
  = Some (push_queue (LRContent text) i).
Proof.
  intros H; unfold _send_text_to_session; rewrite H; simpl.
  apply PyDictFacts.get_set_eq.
Qed.

(** Below capacity, [create_auto_session] keeps every other entry of
    [active_sessions] as it was and registers the new one. *)
Lemma create_below_capacity h sid uid now s :
  (length (active_sessions h) <= max_sessions h)%nat -> s <> sid ->
  PyDict.get s (active_sessions (fst (create_auto_session h sid uid now)))
  = PyDict.get s (active_sessions h).
Proof.
  intros Hcap Hne; unfold create_auto_session; rewrite (cleanup_noop h Hcap); simpl.
  rewrite send_text_get by exact Hne; simpl.
  apply PyDictFacts.get_set_neq; congruence.
Qed.

End RegistryFacts.

Module RegistryClaims.
Import ADKLiveHandler Scenarios RegistryFacts.

(** Claim C2 (code bug). With [max_sessions = 10] and ten sessions
    registered, [create_auto_session] for an eleventh user evicts nothing:
    [_cleanup_old_sessions] returns at once because [10 <= 10], the oldest
    session ["s0"] is still registered and the registry holds eleven
    sessions, one more than [max_sessions]. *)
Theorem create_at_capacity_does_not_evict :
  let h := fst (create_auto_session full_registry "s10" "user_s10" 10) in
  length (active_sessions full_registry) = max_sessions full_registry /\
  length (active_sessions h) = 11%nat /\
  (max_sessions h < length (active_sessions h))%nat /\
  PyDict.get "s0" (active_sessions h) <> None.
Proof. vm_compute; repeat split; try lia; discriminate. Qed.

(** Claim C3 (counterexample). Two [create_auto_session] calls for the same
    user ["alice"] leave both sessions registered in [active_sessions], each
    with [user_id = "alice"]: the first one is not evicted. *)
Lemma same_user_twice_keeps_both :
  let h := fst (create_auto_session
                  (fst (create_auto_session init_handler "s1" "alice" 1))
                  "s2" "alice" 2) in
  (exists i1, PyDict.get "s1" (active_sessions h) = Some i1 /\ si_user_id i1 = "alice") /\
  (exists i2, PyDict.get "s2" (active_sessions h) = Some i2 /\ si_user_id i2 = "alice").
Proof.
  vm_compute; split; eexists; split; reflexivity.
Qed.

(** Claim C3 (as amended). [create_auto_session] never looks for a previous
    session of the same user: below capacity
    ([len(active_sessions) <= max_sessions]) every session already
    registered, the user's own included, stays registered unchanged, the
    new session is registered for [user_id], and [user_sessions[user_id]]
    is overwritten to point at the new session. *)
Theorem create_keeps_previous_session_of_user
    (h : handler) (sid uid : string) (now : Z) :
  (length (active_sessions h) <= max_sessions h)%nat ->
  PyDict.get sid (active_sessions h) = None ->
  let h' := fst (create_auto_session h sid uid now) in
  (forall s, s <> sid -> PyDict.get s (active_sessions h') = PyDict.get s (active_sessions h)) /\
  (exists i, PyDict.get sid (active_sessions h') = Some i /\ si_user_id i = uid) /\
  get_user_session h' uid = Some sid.
Proof.
  intros Hcap Hfresh h'; subst h'.
  split; [intros s Hne; apply create_below_capacity; assumption|].
  unfold create_auto_session; rewrite (cleanup_noop h Hcap); simpl.
  split.
  - eexists; split.
    + apply send_text_self; simpl; apply PyDictFacts.get_set_eq.
    + reflexivity.
  - unfold get_user_session; rewrite send_text_users; simpl.
    apply PyDictFacts.get_set_eq.
Qed.

Lemma create_keeps_previous_session_of_user_witness :
  let h := fst (create_auto_session init_handler "s1" "alice" 1) in
  (length (active_sessions h) <= max_sessions h)%nat /\
  PyDict.get "s2" (active_sessions h) = None /\
  let h' := fst (create_auto_session h "s2" "alice" 2) in
  (forall s, s <> "s2" -> PyDict.get s (active_sessions h') = PyDict.get s (active_sessions h)) /\
  (exists i, PyDict.get "s2" (active_sessions h') = Some i /\ si_user_id i = "alice") /\
  get_user_session h' "alice" = Some "s2".
Proof.
  intros h; split; [vm_compute; lia|]; split; [reflexivity|].
  apply (create_keeps_previous_session_of_user h "s2" "alice" 2).
  - vm_compute; lia.
  - reflexivity.
Defined.

(** Claim C10 (counterexample). For the empty [user_id] (falsy in Python)
    [close_session] keeps the mapping: two sessions of user [""], the map
    pointing at the second; closing the first leaves
    [get_user_session("") = "s2"]. *)
Lemma close_session_empty_user_keeps_mapping :
  let h := fst (create_auto_session
                  (fst (create_auto_session init_handler "s1" "" 1)) "s2" "" 2) in
  (exists i1, PyDict.get "s1" (active_sessions h) = Some i1 /\ si_user_id i1 = "") /\
  get_user_session h "" = Some "s2" /\
  PyDict.get "s2" (active_sessions h) <> None /\
  get_user_session (fst (close_session h "s1")) "" = Some "s2".
Proof.
  vm_compute; split; [eexists; split; reflexivity|].
  split; [reflexivity|]; split; [discriminate|reflexivity].
Qed.

(** Claim C10 (as amended). For a non-empty [user_id] [u]: if
    [user_sessions[u]] points at [s2] while another session [s1] of [u] is
    still registered, [close_session(s1)] deletes [u]'s mapping, so that
    [get_user_session(u)] is [None], while [s2] stays registered with its
    data unchanged. *)
Theorem close_session_drops_mapping_of_other_session
    (h : handler) (s1 s2 u : string) (i1 i2 : session_info) :
  PyDict.get s1 (active_sessions h) = Some i1 -> si_user_id i1 = u -> u <> "" ->
  get_user_session h u = Some s2 -> s1 <> s2 ->
  PyDict.get s2 (active_sessions h) = Some i2 ->
  let h' := fst (close_session h s1) in
  get_user_session h' u = None /\ PyDict.get s2 (active_sessions h') = Some i2.
Proof.
  intros H1 Hu Hne Hmap Hs H2 h'; subst h'.
  unfold close_session; rewrite H1; simpl; rewrite Hu.
  unfold get_user_session in *; unfold truthy, PyDict.mem.
  apply String.eqb_neq in Hne; rewrite Hne, Hmap; simpl.
  split; [apply PyDictFacts.get_del_eq|].
  rewrite PyDictFacts.get_del_neq by congruence; exact H2.
Qed.

Lemma close_session_drops_mapping_of_other_session_witness :
  let h := fst (create_auto_session
                  (fst (create_auto_session init_handler "s1" "alice" 1)) "s2" "alice" 2) in
  exists i1 i2,
  PyDict.get "s1" (active_sessions h) = Some i1 /\ si_user_id i1 = "alice" /\
  get_user_session h "alice" = Some "s2" /\
  PyDict.get "s2" (active_sessions h) = Some i2 /\
  let h' := fst (close_session h "s1") in
  get_user_session h' "alice" = None /\ PyDict.get "s2" (active_sessions h') = Some i2.
Proof.
  intros h.
  destruct (PyDict.get "s1" (active_sessions h)) as [i1|] eqn:E1; [|vm_compute in E1; discriminate].
  destruct (PyDict.get "s2" (active_sessions h)) as [i2|] eqn:E2; [|vm_compute in E2; discriminate].
  assert (U : si_user_id i1 = "alice").
  { vm_compute in E1; injection E1 as <-; reflexivity. }
  exists i1, i2; split; [reflexivity|]; split; [exact U|]; split; [reflexivity|].
  split; [reflexivity|].
  apply (close_session_drops_mapping_of_other_session h "s1" "s2" "alice" i1 i2 E1 U).
  - discriminate.
  - reflexivity.
  - discriminate.
  - exact E2.
Defined.

End RegistryClaims.

Module ServerClaims.
Import ADKLiveHandler WebSocketServer ADKBridge ServerScenarios Auxiliary.

Example ping_answered :
  handle_frames toy_loads toy_b64decode (mk_conn alice_registry (Some "s1")) [(5%Z, Text "ping")]
  = (mk_conn alice_registry (Some "s1"), [WsPong 5%Z]).
Proof. reflexivity. Qed.


Lemma bridge_loop_app (bstate : Type) bridge_loads hm (st : bstate)
    (l1 l2 : list frame) :
  let '(st1, o1, t1) := bridge_loop bstate bridge_loads hm st l1 in
  t1 = false ->
  bridge_loop bstate bridge_loads hm st (l1 ++ l2) =
  let '(st2, o2, t2) := bridge_loop bstate bridge_loads hm st1 l2 in
  (st2, (o1 ++ o2)%list, t2).
Proof.
  revert st; induction l1 as [|f l1 IH]; intros st; simpl.
  - intros _; destruct (bridge_loop bstate bridge_loads hm st l2) as [[? ?] ?]; reflexivity.
  - destruct (bridge_loads f) as [data|err|err].
    + destruct (hm st data) as [[st1 o1]|]; [|discriminate].
      specialize (IH st1).
      destruct (bridge_loop bstate bridge_loads hm st1 l1) as [[st2 o2] t2].
      intros Ht; rewrite (IH Ht).
      destruct (bridge_loop bstate bridge_loads hm st2 l2) as [[st3 o3] t3].
      rewrite app_assoc; reflexivity.
    + specialize (IH st).
      destruct (bridge_loop bstate bridge_loads hm st l1) as [[st2 o2] t2].
      intros Ht; rewrite (IH Ht).
      destruct (bridge_loop bstate bridge_loads hm st2 l2) as [[st3 o3] t3].
      reflexivity.
    + discriminate.
Qed.




Lemma close_session_absent (h : handler) (sid : string) :
  PyDict.get sid (active_sessions h) = None -> close_session h sid = (h, true).
Proof. intros E; unfold close_session; rewrite E; reflexivity. Qed.

Lemma close_session_result (h : handler) (sid : string) :
  exists h1, close_session h sid = (h1, true) /\ PyDict.get sid (active_sessions h1) = None.
Proof.
  unfold close_session; destruct (PyDict.get sid (active_sessions h)) eqn:E.
  - eexists; split; [reflexivity|]; simpl; apply PyDictFacts.get_del_eq.
  - exists h; split; [reflexivity|exact E].
Qed.

(** Claim C7 (counterexample). Two [stop_session] messages on the same
    connection yield two [session_stopped] messages for ["s1"], where one
    [stop_session] yields one. *)
Lemma stop_session_twice_duplicates_stopped :
  let c := mk_conn alice_registry (Some "s1") in
  match handle_text_message toy_b64decode c stop_message 0%Z with
  | inl (c1, o1) =>
      match handle_text_message toy_b64decode c1 stop_message 1%Z with
      | inl (_, o2) =>
          o1 = [WsSessionStopped "s1"] /\ (o1 ++ o2)%list = [WsSessionStopped "s1"; WsSessionStopped "s1"]
      | inr _ => False
      end
  | inr _ => False
  end.
Proof. vm_compute; split; reflexivity. Qed.

(** Claim C7 (as amended). [close_session] is idempotent and always
    succeeds: the first call returns [True], and a second call returns
    [True] and changes nothing. [handle_stop_session] keeps the connection's
    session id and reports each successful [close_session], so a second
    [stop_session] leaves the registry unchanged but emits a second
    [session_stopped] for the same id. *)
Theorem close_session_idempotent_stop_reports_twice (h : handler) (sid : string) :
  let (h1, ok1) := close_session h sid in
  ok1 = true /\ close_session h1 sid = (h1, true) /\
  let (c1, o1) := handle_stop_session (mk_conn h (Some sid)) in
  let (c2, o2) := handle_stop_session c1 in
  c1 = mk_conn h1 (Some sid) /\ c2 = c1 /\
  o1 = [WsSessionStopped sid] /\ o2 = [WsSessionStopped sid].
Proof.
  destruct (close_session_result h sid) as [h1 [E G]]; rewrite E.
  pose proof (close_session_absent h1 sid G) as E1.
  split; [reflexivity|]; split; [exact E1|].
  unfold handle_stop_session; simpl; rewrite E; simpl; rewrite E1.
  repeat split.
Qed.

End ServerClaims.

Module LifecycleClaims.
Import ADKLiveHandler Lifecycle RegistryFacts.

Lemma get_set_cases {V} (s k : string) (v i : V) d :
  PyDict.get s (PyDict.set k v d) = Some i ->
  (s = k /\ i = v) \/ (s <> k /\ PyDict.get s d = Some i).
Proof.
  destruct (String.eqb_spec s k) as [->|Hne].
  - rewrite PyDictFacts.get_set_eq; intros [= ->]; left; split; reflexivity.
  - rewrite PyDictFacts.get_set_neq by exact Hne; intros H; right; split; assumption.
Qed.

Lemma close_entries h k s i :
  PyDict.get s (active_sessions (fst (close_session h k))) = Some i ->
  PyDict.get s (active_sessions h) = Some i.
Proof.
  unfold close_session; destruct (PyDict.get k (active_sessions h)); simpl; [|exact id].
  apply get_del_some.
Qed.

Lemma fold_close_entries (l : list (string * session_info)) h s i :
  PyDict.get s (active_sessions (fold_left (fun h' p => fst (close_session h' (fst p))) l h))
  = Some i -> PyDict.get s (active_sessions h) = Some i.
Proof.
  revert h; induction l as [|p l IH]; intros h; simpl; [exact id|].
  intros H; apply close_entries with (k := fst p); exact (IH _ H).
Qed.

Lemma cleanup_entries h s i :
  PyDict.get s (active_sessions (_cleanup_old_sessions h)) = Some i ->
  PyDict.get s (active_sessions h) = Some i.
Proof.
  unfold _cleanup_old_sessions; destruct (Nat.leb _ _); [exact id|].
  apply fold_close_entries.
Qed.

Lemma views_delete_entries h s i :
  PyDict.get s (active_sessions (views_delete_all h)) = Some i ->
  PyDict.get s (active_sessions h) = Some i.
Proof.
  unfold views_delete_all; generalize (PyDict.keys (active_sessions h)) as l.
  intros l; revert h; induction l as [|k l IH]; intros h; simpl; [exact id|].
  intros H; apply IH in H; revert H.
  destruct (PyDict.get k (active_sessions h)) as [ik|]; simpl; [|exact id].
  destruct (String.eqb_spec s k) as [->|Hne].
  - rewrite PyDictFacts.get_del_eq; discriminate.
  - rewrite PyDictFacts.get_del_neq, PyDictFacts.get_set_neq by exact Hne; exact id.
Qed.

Lemma push_queue_active r i : si_is_active (push_queue r i) = si_is_active i.
Proof. reflexivity. Qed.

(** Each operation keeps an entry it does not create (an Active entry
    stays Active), and what it creates is Active. *)
Lemma step_entries h o s i :
  PyDict.get s (active_sessions (apply_op h o)) = Some i ->
  (exists i0, PyDict.get s (active_sessions h) = Some i0 /\
              (si_is_active i0 = true -> si_is_active i = true)) \/
  (op_creates o s /\ si_is_active i = true).
Proof.
  destruct o as [sid uid now|sid|sid b|sid t| |]; simpl.
  - (* create_auto_session *)
    unfold create_auto_session; simpl.
    set (h1 := _cleanup_old_sessions h).
    set (info := mk_session_info sid uid now true true [] false).
    set (h2 := mk_handler (PyDict.set sid info (active_sessions h1))
                 (PyDict.set uid sid (user_sessions h1)) (max_sessions h1)).
    destruct (String.eqb_spec s sid) as [->|Hne].
    + rewrite (send_text_self h2 sid initial_greeting info)
        by (simpl; apply PyDictFacts.get_set_eq).
      intros [= <-]; right; split; reflexivity.
    + rewrite send_text_get by exact Hne; simpl.
      rewrite PyDictFacts.get_set_neq by exact Hne.
      intros H; left; exists i; split; [exact (cleanup_entries h s i H)| exact id].
  - intros H; left; exists i; split; [exact (close_entries h sid s i H) | exact id].
  - (* process_audio_input: the stored entry is Active in both branches *)
    unfold process_audio_input.
    destruct (PyDict.get sid (active_sessions h)) as [i0|] eqn:E; simpl.
    + intros H; apply get_set_cases in H as [[-> ->]|[_ H]].
      * left; exists i0; split; [exact E|].
        intros _; rewrite push_queue_active; destruct (si_is_active i0) eqn:A; [exact A|reflexivity].
      * left; exists i; split; [exact H|exact id].
    + intros H; left; exists i; split; [exact H|exact id].
  - unfold process_text_input.
    destruct (PyDict.get sid (active_sessions h)) as [i0|] eqn:E; simpl.
    + intros H; apply get_set_cases in H as [[-> ->]|[_ H]].
      * left; exists i0; split; [exact E|]; rewrite push_queue_active; exact id.
      * left; exists i; split; [exact H|exact id].
    + intros H; left; exists i; split; [exact H|exact id].
  - unfold cleanup_all_sessions; simpl; discriminate.
  - intros H; left; exists i; split; [exact (views_delete_entries h s i H)|exact id].
Qed.

(** Every registered session of a reachable registry is Active and was
    issued. *)
Lemma reachable_inv issued h :
  reachable issued h ->
  forall s i, PyDict.get s (active_sessions h) = Some i ->
  si_is_active i = true /\ In s issued.
Proof.
  induction 1 as [|issued h o R IH F]; [discriminate|].
  intros s i H; apply step_entries in H as [[i0 [H0 Himp]]|[Hc Ha]].
  - destruct (IH s i0 H0) as [A Is]; split; [exact (Himp A)|].
    destruct o; simpl; auto.
  - split; [exact Ha|]; destruct o; simpl in *; try contradiction; left; exact Hc.
Qed.

(** Claim C9. In a reachable registry, a session that has existed (its id
    was issued) and is not Active (it is no longer registered with
    [is_active = True]) is not made Active again by any operation,
    [process_audio_input] included. *)
Theorem no_return_to_active (issued : list string) (h : handler) (sid : string) (o : op) :
  reachable issued h -> In sid issued -> ~ active_in h sid -> op_fresh o issued ->
  ~ active_in (apply_op h o) sid.
Proof.
  intros R Hin Hna F [i [H A]].
  apply step_entries in H as [[i0 [H0 Himp]]|[Hc _]].
  - apply Hna; exists i0; split; [exact H0|].
    exact (proj1 (reachable_inv issued h R sid i0 H0)).
  - destruct o; simpl in Hc, F; try contradiction; subst; exact (F Hin).
Qed.

Lemma no_return_to_active_witness :
  let h := fst (close_session (fst (create_auto_session init_handler "s1" "alice" 1)) "s1") in
  reachable ["s1"] h /\ In "s1" ["s1"] /\ ~ active_in h "s1" /\
  ~ active_in (apply_op h (OpAudio "s1" [Byte.x00])) "s1".
Proof.
  intros h.
  assert (R : reachable ["s1"] h).
  { apply (reach_step ["s1"] _ (OpClose "s1")); [|exact I].
    apply (reach_step [] _ (OpCreate "s1" "alice" 1)); [apply reach_init|].
    simpl; tauto. }
  assert (N : ~ active_in h "s1").
  { intros [i [H _]]; vm_compute in H; discriminate. }
  split; [exact R|]; split; [left; reflexivity|]; split; [exact N|].
  apply (no_return_to_active ["s1"] h "s1" (OpAudio "s1" [Byte.x00]) R); [left; reflexivity|exact N|exact I].
Defined.

(** The branch of [process_audio_input] that sets [is_active] back to
    [True] is reached only on a registry holding an inactive entry, which
    no reachable registry does ([reachable_inv]). *)
Example reactivation_on_unreachable_registry :
  let i := mk_session_info "s1" "alice" 1 false true [] false in
  let h := mk_handler [("s1", i)] [("alice", "s1")] 10 in
  active_in (fst (process_audio_input h "s1" [Byte.x00])) "s1".
Proof. eexists; split; reflexivity. Qed.

End LifecycleClaims.

Module ConsolidatorTests.
Import UnifiedVoiceServer.

Example strip_test : py_strip "  Hi there  " = "Hi there".
Proof. reflexivity. Qed.

Example contains_test : contains "Hello world" "Hello" = true /\ contains "Hello" "Hello world" = false.
Proof. split; reflexivity. Qed.

Example hi_script_run :
  snd (run_all (fresh_session 0) hi_script) =
  [(200, UAudioChunk [Byte.x01; Byte.x02]); (300, UTurnComplete); (1600, UTranscript "Hi there")]%Z.
Proof. reflexivity. Qed.

Example one_char_alone : snd (run_all (fresh_session 0) [(0%Z, Upstream (text_event "x"))]) = [].
Proof. reflexivity. Qed.

End ConsolidatorTests.

Module ConsolidatorClaims.
Import UnifiedVoiceServer.

(** Claim C1 (counterexample). For the script [TextDelta("Hi"),
    TextDelta("Hi there"), AudioDelta, TurnComplete] the TurnComplete at
    300 ms flushes nothing: the Transcript comes from the timer at 1600 ms,
    and if the session is cleaned up at 400 ms the client receives no
    Transcript at all. *)
Lemma turn_complete_does_not_flush :
  snd (run_all (fresh_session 0) hi_script) =
    [(200, UAudioChunk [Byte.x01; Byte.x02]); (300, UTurnComplete);
     (1600, UTranscript "Hi there")]%Z /\
  snd (run_all (fresh_session 0) (hi_script ++ [(400%Z, SessionEnd)])%list) =
    [(200, UAudioChunk [Byte.x01; Byte.x02]); (300, UTurnComplete)]%Z.
Proof. split; reflexivity. Qed.

(** Claim C1 (as amended). A TurnComplete event is only forwarded: the
    session, its buffer and its pending timer are left unchanged. Session
    cleanup drops the session, the buffer and the timer without a flush.
    For the scripted upstream the one Transcript ("Hi there") is sent by
    the timer, 1.5 s after the last TextDelta. *)
Theorem turn_complete_is_only_forwarded (s : option usession) (t : Z) :
  handle_input s t (Upstream turn_complete_event) = (s, [(t, UTurnComplete)]) /\
  handle_input s t SessionEnd = (None, []) /\
  snd (run_all (fresh_session 0) hi_script) =
    [(200, UAudioChunk [Byte.x01; Byte.x02]); (300, UTurnComplete);
     (1600, UTranscript "Hi there")]%Z.
Proof. split; [reflexivity|]; split; reflexivity. Qed.

Lemma fold_max_spec (key : chunk -> Z) (xs : list chunk) (x : chunk) :
  let b := fold_left (fun best y => if (key best <? key y)%Z then y else best) xs x in
  (b = x \/ In b xs) /\ (key x <= key b)%Z /\ (forall c, In c xs -> (key c <= key b)%Z).
Proof.
  revert x; induction xs as [|y xs IH]; intros x; simpl.
  - split; [left; reflexivity|]; split; [lia|contradiction].
  - destruct (Z.ltb_spec (key x) (key y)) as [Hlt|Hge].
    + destruct (IH y) as [Hin [Hk Hall]].
      split; [destruct Hin as [->|Hin]; right; [left; reflexivity|right; exact Hin]|].
      split; [lia|]; intros c [<-|Hc]; [lia|exact (Hall c Hc)].
    + destruct (IH x) as [Hin [Hk Hall]].
      split; [destruct Hin as [->|Hin]; [left; reflexivity|right; right; exact Hin]|].
      split; [lia|]; intros c [<-|Hc]; [lia|exact (Hall c Hc)].
Qed.

Lemma py_max_spec (key : chunk -> Z) (l : list chunk) (m : chunk) :
  py_max key l = Some m -> In m l /\ (forall c, In c l -> (key c <= key m)%Z).
Proof.
  destruct l as [|x xs]; simpl; [discriminate|]; intros [= <-].
  destruct (fold_max_spec key xs x) as [Hin [Hk Hall]].
  split; [destruct Hin as [->|Hin]; [left; reflexivity|right; exact Hin]|].
  intros c [<-|Hc]; [exact Hk|exact (Hall c Hc)].
Qed.

Lemma py_max_none (key : chunk -> Z) (l : list chunk) : py_max key l = None -> l = [].
Proof. destruct l; [reflexivity|discriminate]. Qed.

(** Claim C4. For a non-empty buffer of chunks whose [length] is the
    length of their text, the candidate is the text of a longest entry [m],
    unless some entry is longer than 50: then for the most recent such
    entry [r] the candidate is [r]'s text when [length r >= 0.8 * length m]
    and [m]'s text otherwise. *)
Theorem candidate_longest_or_fresh (buf : list chunk) :
  buf <> [] -> (forall c, In c buf -> c_length c = String.length (c_text c)) ->
  exists m, In m buf /\ (forall c, In c buf -> (c_length c <= c_length m)%nat) /\
  (((forall c, In c buf -> (c_length c <= 50)%nat) /\ select_candidate buf = Some (c_text m)) \/
   (exists r, In r buf /\ (50 < c_length r)%nat /\
      (forall c, In c buf -> (50 < c_length c)%nat -> (c_timestamp c <= c_timestamp r)%Z) /\
      (((4 * c_length m <= 5 * c_length r)%nat /\ select_candidate buf = Some (c_text r)) \/
       ((5 * c_length r < 4 * c_length m)%nat /\ select_candidate buf = Some (c_text m))))).
Proof.
  intros Hne Hwf; unfold select_candidate.
  destruct (py_max (fun c => Z.of_nat (c_length c)) buf) as [m|] eqn:Em;
    [|apply py_max_none in Em; contradiction].
  destruct (py_max_spec _ _ _ Em) as [Hm Hmax].
  exists m; split; [exact Hm|]; split; [intros c Hc; specialize (Hmax c Hc); lia|].
  rewrite <- (Hwf m Hm).
  destruct (py_max c_timestamp (filter (fun c => Nat.ltb 50 (c_length c)) buf)) as [r|] eqn:Er.
  - destruct (py_max_spec _ _ _ Er) as [Hr Hrmax].
    apply filter_In in Hr as [Hr Hlong]; apply Nat.ltb_lt in Hlong.
    right; exists r; split; [exact Hr|]; split; [exact Hlong|]; split.
    + intros c Hc Hcl; apply Hrmax, filter_In; split; [exact Hc|apply Nat.ltb_lt; exact Hcl].
    + destruct (Nat.leb_spec (4 * c_length m) (5 * c_length r)).
      * left; split; [assumption|reflexivity].
      * right; split; [assumption|reflexivity].
  - apply py_max_none in Er; left; split; [|reflexivity].
    intros c Hc; destruct (Nat.le_gt_cases (c_length c) 50) as [H|H]; [exact H|].
    assert (In c (filter (fun c => Nat.ltb 50 (c_length c)) buf)) as Hf
      by (apply filter_In; split; [exact Hc|apply Nat.ltb_lt; exact H]).
    rewrite Er in Hf; contradiction.
Qed.

Lemma candidate_longest_or_fresh_witness :
  let old := mk_chunk (repeat_char 70 "a") 0 70 in
  let fresh := mk_chunk (repeat_char 60 "b") 1 60 in
  [old; fresh] <> [] /\
  (forall c, In c [old; fresh] -> c_length c = String.length (c_text c)) /\
  select_candidate [old; fresh] = Some (repeat_char 60 "b") /\
  exists m, In m [old; fresh] /\ (forall c, In c [old; fresh] -> (c_length c <= c_length m)%nat) /\
  (((forall c, In c [old; fresh] -> (c_length c <= 50)%nat) /\ select_candidate [old; fresh] = Some (c_text m)) \/
   (exists r, In r [old; fresh] /\ (50 < c_length r)%nat /\
      (forall c, In c [old; fresh] -> (50 < c_length c)%nat -> (c_timestamp c <= c_timestamp r)%Z) /\
      (((4 * c_length m <= 5 * c_length r)%nat /\ select_candidate [old; fresh] = Some (c_text r)) \/
       ((5 * c_length r < 4 * c_length m)%nat /\ select_candidate [old; fresh] = Some (c_text m))))).
Proof.
  intros old fresh.
  assert (Hwf : forall c, In c [old; fresh] -> c_length c = String.length (c_text c)).
  { intros c [<-|[<-|[]]]; reflexivity. }
  split; [discriminate|]; split; [exact Hwf|]; split; [reflexivity|].
  apply (candidate_longest_or_fresh [old; fresh]); [discriminate|exact Hwf].
Defined.

Lemma contains_in_empty (needle : string) : contains "" needle = true -> needle = "".
Proof.
  simpl; rewrite orb_false_r; destruct needle; [reflexivity|discriminate].
Qed.

(** Claim C5. When the candidate equals [last_transcript] or is a
    substring of it, the flush emits nothing, clears the buffer and leaves
    [last_transcript] as it was. *)
Theorem duplicate_candidate_is_discarded (sd : usession) (cand : string) :
  select_candidate (transcript_buffer sd) = Some cand ->
  cand = last_transcript sd \/ contains (last_transcript sd) cand = true ->
  consolidate_and_send (Some sd) =
    (Some (mk_usession [] (last_transcript sd) (last_chunk_time sd) None), []).
Proof.
  intros Hc Hdup; unfold consolidate_and_send; rewrite Hc.
  destruct (String.eqb_spec cand (last_transcript sd)) as [_|Hne]; [reflexivity|].
  destruct Hdup as [Heq|Hin]; [contradiction|].
  unfold ADKLiveHandler.truthy.
  destruct (String.eqb_spec (last_transcript sd) "") as [He|_].
  - rewrite He in Hin, Hne; apply contains_in_empty in Hin; contradiction.
  - rewrite Hin; reflexivity.
Qed.

Lemma duplicate_candidate_is_discarded_witness :
  let sd := mk_usession [mk_chunk "Hello" 0 5] "Hello world" 0 (Some 1500%Z) in
  select_candidate (transcript_buffer sd) = Some "Hello" /\
  contains (last_transcript sd) "Hello" = true /\
  consolidate_and_send (Some sd) = (Some (mk_usession [] "Hello world" 0 None), []).
Proof.
  intros sd; split; [reflexivity|]; split; [reflexivity|].
  apply (duplicate_candidate_is_discarded sd "Hello"); [reflexivity|right; reflexivity].
Defined.

End ConsolidatorClaims.

Module StreamingClaims.
Import UnifiedVoiceServer Streaming ConsolidatorClaims.

(** Claim C6 (counterexample). ["Hello"] at 0 ms and ["Hello world"] at
    2000 ms: the first timer fires before the second fragment arrives, so
    the prefix ["Hello"] is emitted as a Transcript of its own. *)
Lemma slow_stream_emits_prefix :
  snd (run_all (fresh_session 0) (text_inputs [(0, "Hello"); (2000, "Hello world")]%Z)) =
    [(1500, UTranscript "Hello"); (3500, UTranscript "Hello world")]%Z.
Proof. reflexivity. Qed.

Lemma prefix_length (a b : string) :
  String.prefix a b = true -> (String.length a <= String.length b)%nat /\
  (String.length a = String.length b -> a = b).
Proof.
  revert b; induction a as [|x a IH]; intros b; simpl.
  - intros _; destruct b; simpl; split; [lia|reflexivity|lia|discriminate].
  - destruct b as [|y b]; simpl; [intros Hf; discriminate Hf|].
    destruct (ascii_dec x y) as [<-|]; [|intros Hf; discriminate Hf].
    intros H; destruct (IH b H) as [Hle Heq]; simpl; split; [lia|].
    intros E; f_equal; apply Heq; lia.
Qed.

Lemma strict_prefix_shorter (a b : string) :
  String.prefix a b = true -> a <> b -> (String.length a < String.length b)%nat.
Proof.
  intros Hp Hne; destruct (prefix_length a b Hp) as [Hle Heq].
  destruct (Nat.eq_dec (String.length a) (String.length b)) as [E|E];
    [contradiction (Hne (Heq E))|lia].
Qed.

(** The consolidator state after the fragment [f] that arrived at [t]:
    [f] is the newest chunk, strictly longer and strictly newer than every
    other buffered chunk, nothing has been emitted, and the timer fires at
    [t + 1.5 s]. *)
Definition settled (sd : usession) (t : Z) (f : string) : Prop :=
  exists pre,
    transcript_buffer sd = (pre ++ [mk_chunk f t (String.length f)])%list /\
    (forall c, In c pre -> (c_length c < String.length f)%nat /\ (c_timestamp c < t)%Z) /\
    last_transcript sd = "" /\
    consolidation_timer sd = Some (t + consolidation_delay)%Z.

Lemma handle_text_event (s : option usession) (t : Z) (f : string) :
  delivered f ->
  handle_input s t (Upstream (text_event f)) = (process_transcript_with_buffering s t f, []).
Proof.
  intros [Hs Hl]; unfold handle_input, handle_event, text_event; simpl.
  assert (Ht : ADKLiveHandler.truthy f = true).
  { unfold ADKLiveHandler.truthy; destruct f; [simpl in Hl; lia|reflexivity]. }
  rewrite Ht, Hs.
  destruct (Nat.ltb_spec (String.length f) 2); [lia|reflexivity].
Qed.

Lemma settled_first (t0 t : Z) (f : string) :
  delivered f ->
  exists sd, step (fresh_session t0) (t, Upstream (text_event f)) = (Some sd, []) /\
             settled sd t f.
Proof.
  intros Hd; unfold step, fire_due, fresh_session; cbn [consolidation_timer].
  rewrite handle_text_event by exact Hd; simpl.
  eexists; split; [reflexivity|].
  exists []; simpl; split.
  - rewrite Z.sub_diag; reflexivity.
  - split; [contradiction|split; reflexivity].
Qed.

Lemma settled_next (sd : usession) (t t' : Z) (f f' : string) :
  settled sd t f -> (t < t' < t + consolidation_delay)%Z ->
  (String.length f < String.length f')%nat -> delivered f' ->
  exists sd', step (Some sd) (t', Upstream (text_event f')) = (Some sd', []) /\
              settled sd' t' f'.
Proof.
  intros [pre [Hb [Hpre [Hl Ht]]]] Htime Hlen Hd.
  unfold step, fire_due; rewrite Ht.
  destruct (Z.leb_spec (t + consolidation_delay) t') as [Hle|_]; [lia|].
  rewrite handle_text_event by exact Hd; simpl.
  eexists; split; [reflexivity|].
  exists (filter (fun c => (t' - c_timestamp c <? buffer_window)%Z)
            (pre ++ [mk_chunk f t (String.length f)])%list).
  split; [|split; [|split; [exact Hl|reflexivity]]].
  - rewrite Hb, filter_app; simpl; rewrite Z.sub_diag; reflexivity.
  - intros c Hc; apply filter_In in Hc as [Hc _].
    apply in_app_or in Hc as [Hc|[<-|[]]].
    + destruct (Hpre c Hc); split; lia.
    + simpl; split; lia.
Qed.

Lemma last_default {A} (x : A) (l : list A) (d d' : A) : last (x :: l) d = last (x :: l) d'.
Proof.
  revert x; induction l as [|y l IH]; intros x; [reflexivity|].
  change (last (y :: l) d = last (y :: l) d'); apply IH.
Qed.

Lemma last_in {A} (x : A) (l : list A) (d : A) : In (last (x :: l) d) (x :: l).
Proof.
  revert x; induction l as [|y l IH]; intros x; [left; reflexivity|].
  right; change (In (last (y :: l) d) (y :: l)); apply IH.
Qed.

Lemma settled_chain (rest : list (Z * string)) :
  forall sd t f, settled sd t f -> cumulative_timely ((t, f) :: rest) ->
  Forall (fun p => delivered (snd p)) rest ->
  exists sd', run (Some sd) (text_inputs rest) = (Some sd', []) /\
              settled sd' (fst (last ((t, f) :: rest) (t, f)))
                          (snd (last ((t, f) :: rest) (t, f))).
Proof.
  induction rest as [|[t2 f2] rest IH]; intros sd t f Hs Hc Hf.
  - exists sd; split; [reflexivity|exact Hs].
  - destruct Hc as [Htime [Hp [Hne Hc]]].
    inversion Hf as [|? ? Hd2 Hf']; subst.
    destruct (settled_next sd t t2 f f2 Hs Htime (strict_prefix_shorter f f2 Hp Hne) Hd2)
      as [sd2 [Estep Hs2]].
    destruct (IH sd2 t2 f2 Hs2 Hc Hf') as [sd' [Erun Hs']].
    exists sd'; split.
    + unfold text_inputs in *; cbn [map run fst snd]; rewrite Estep, Erun; reflexivity.
    + change (last ((t, f) :: (t2, f2) :: rest) (t, f)) with (last ((t2, f2) :: rest) (t, f)).
      rewrite (last_default (t2, f2) rest (t, f) (t2, f2)); exact Hs'.
Qed.

Lemma py_max_last (key : chunk -> Z) (pre : list chunk) (x : chunk) :
  (forall c, In c pre -> (key c < key x)%Z) -> py_max key (pre ++ [x])%list = Some x.
Proof.
  intros H; destruct pre as [|p pre]; [reflexivity|].
  simpl; rewrite fold_left_app; simpl.
  destruct (fold_max_spec key pre p) as [Hin _].
  set (b := fold_left _ pre p) in *.
  assert (Hb : (key b < key x)%Z).
  { apply H; destruct Hin as [->|Hin]; [left; reflexivity|right; exact Hin]. }
  apply Z.ltb_lt in Hb; rewrite Hb; reflexivity.
Qed.

Lemma select_newest_longest (pre : list chunk) (t : Z) (f : string) :
  (forall c, In c pre -> (c_length c < String.length f)%nat /\ (c_timestamp c < t)%Z) ->
  select_candidate (pre ++ [mk_chunk f t (String.length f)])%list = Some f.
Proof.
  intros H; unfold select_candidate.
  rewrite py_max_last by (intros c Hc; simpl; destruct (H c Hc); lia); simpl.
  rewrite filter_app; simpl.
  destruct (Nat.ltb_spec 50 (String.length f)) as [Hlong|Hshort].
  - rewrite py_max_last.
    + simpl; destruct (Nat.leb _ _); reflexivity.
    + intros c Hc; apply filter_In in Hc as [Hc _]; simpl; destruct (H c Hc); lia.
  - assert (E : filter (fun c => Nat.ltb 50 (c_length c)) pre = []).
    { clear -H Hshort; induction pre as [|c pre IH]; [reflexivity|]; simpl.
      destruct (H c (or_introl eq_refl)) as [Hc _].
      destruct (Nat.ltb_spec 50 (c_length c)); [lia|].
      apply IH; intros c' Hc'; apply H; right; exact Hc'. }
    rewrite E; reflexivity.
Qed.

Lemma settled_flush (sd : usession) (t : Z) (f : string) :
  settled sd t f -> (2 <= String.length f)%nat ->
  snd (quiesce (Some sd)) = [((t + consolidation_delay)%Z, UTranscript f)].
Proof.
  intros [pre [Hb [Hpre [Hl Ht]]]] Hlen.
  unfold quiesce, fire_due; rewrite Ht, Z.leb_refl.
  unfold consolidate_and_send; rewrite Hb, (select_newest_longest pre t f Hpre), Hl.
  destruct (String.eqb_spec f "") as [->|_]; [simpl in Hlen; lia|].
  reflexivity.
Qed.

(** Claim C6 (as amended). For a non-empty sequence of TextDelta
    fragments, each a strict extension of the previous one, each arriving
    strictly later and less than 1.5 s after the previous one, each free of
    surrounding white space and at least two characters long, a fresh
    session emits exactly one Transcript: the last fragment, 1.5 s after it
    arrived. *)
Theorem cumulative_stream_emits_last_once (t0 : Z) (frags : list (Z * string)) :
  frags <> [] -> cumulative_timely frags -> Forall (fun p => delivered (snd p)) frags ->
  snd (run_all (fresh_session t0) (text_inputs frags)) =
    [((fst (last frags (0%Z, "")) + consolidation_delay)%Z,
      UTranscript (snd (last frags (0%Z, ""))))].
Proof.
  intros Hne Hc Hf.
  destruct frags as [|[t1 f1] rest]; [contradiction|].
  inversion Hf as [|? ? Hd1 Hf']; subst.
  destruct (settled_first t0 t1 f1 Hd1) as [sd1 [E1 Hs1]].
  destruct (settled_chain rest sd1 t1 f1 Hs1 Hc Hf') as [sd' [E2 Hs']].
  rewrite (last_default (t1, f1) rest (0%Z, "") (t1, f1)).
  unfold run_all, text_inputs in *; cbn [map run fst snd]; rewrite E1, E2.
  destruct (quiesce (Some sd')) as [s2 o2] eqn:Eq.
  pose proof (last_in (t1, f1) rest (t1, f1)) as Hin.
  rewrite Forall_forall in Hf.
  destruct (Hf _ Hin) as [_ Hlen].
  pose proof (settled_flush sd' _ _ Hs' Hlen) as Hfl; rewrite Eq in Hfl; simpl in Hfl.
  simpl; exact Hfl.
Qed.

Lemma cumulative_stream_emits_last_once_witness :
  let frags := [(0, "He"); (400, "Hello"); (900, "Hello wor"); (1300, "Hello world")]%Z in
  frags <> [] /\ cumulative_timely frags /\ Forall (fun p => delivered (snd p)) frags /\
  snd (run_all (fresh_session 0) (text_inputs frags)) = [(2800%Z, UTranscript "Hello world")].
Proof.
  intros frags.
  assert (Hc : cumulative_timely frags).
  { simpl; unfold consolidation_delay; repeat split; try lia; try reflexivity; discriminate. }
  assert (Hf : Forall (fun p => delivered (snd p)) frags).
  { repeat constructor; simpl; lia. }
  split; [discriminate|]; split; [exact Hc|]; split; [exact Hf|].
  exact (cumulative_stream_emits_last_once 0 frags ltac:(discriminate) Hc Hf).
Defined.

End StreamingClaims.

(* ------------------------------------------------------------------ *)
(** ** More facts about the registry *)

Module DictLemmas.
Import PyDict.

Lemma keys_set_present {V} (k : string) (v : V) (d : list (string * V)) :
  get k d <> None -> keys (set k v d) = keys d.
Proof.
  induction d as [|[k' v'] d IH]; simpl; [congruence|].
  destruct (String.eqb_spec k k') as [->|Hne]; simpl; [reflexivity|].
  intros H; f_equal; exact (IH H).
Qed.

Lemma keys_set_new {V} (k : string) (v : V) (d : list (string * V)) :
  get k d = None -> keys (set k v d) = (keys d ++ [k])%list.
Proof.
  induction d as [|[k' v'] d IH]; simpl; [reflexivity|].
  destruct (String.eqb_spec k k') as [->|Hne]; simpl; [discriminate|].
  intros H; f_equal; exact (IH H).
Qed.

Lemma keys_del {V} (k : string) (d : list (string * V)) :
  keys (del k d) = filter (fun k' => negb (String.eqb k' k)) (keys d).
Proof.
  unfold del, keys; induction d as [|[k' v'] d IH]; simpl; [reflexivity|].
  destruct (negb (String.eqb k' k)); simpl; rewrite IH; reflexivity.
Qed.

Lemma get_none_keys {V} (k : string) (d : list (string * V)) :
  get k d = None <-> ~ In k (keys d).
Proof.
  induction d as [|[k' v'] d IH]; simpl; [tauto|].
  destruct (String.eqb_spec k k') as [->|Hne].
  - split; [discriminate|intros H; exfalso; apply H; left; reflexivity].
  - rewrite IH; split; [intros H [E|E]; [congruence|exact (H E)]|intros H E; apply H; right; exact E].
Qed.

Lemma get_some_in {V} (k : string) (v : V) (d : list (string * V)) :
  get k d = Some v -> In (k, v) d.
Proof.
  induction d as [|[k' v'] d IH]; simpl; [discriminate|].
  destruct (String.eqb_spec k k') as [->|Hne]; [intros [= ->]; left; reflexivity|].
  intros H; right; exact (IH H).
Qed.

Lemma get_in_nodup {V} (k : string) (v : V) (d : list (string * V)) :
  NoDup (keys d) -> In (k, v) d -> get k d = Some v.
Proof.
  induction d as [|[k' v'] d IH]; simpl; [contradiction|].
  intros Hnd Hin; inversion Hnd as [|? ? Hnin Hnd']; subst.
  destruct Hin as [[= -> ->]|Hin].
  - rewrite String.eqb_refl; reflexivity.
  - destruct (String.eqb_spec k k') as [->|Hne].
    + exfalso; apply Hnin; unfold keys; apply (in_map fst) in Hin; exact Hin.
    + exact (IH Hnd' Hin).
Qed.

Lemma del_absent {V} (k : string) (d : list (string * V)) :
  ~ In k (keys d) -> del k d = d.
Proof.
  unfold del; induction d as [|[k' v'] d IH]; simpl; [reflexivity|].
  intros H; destruct (String.eqb_spec k' k) as [->|Hne]; simpl.
  - exfalso; apply H; left; reflexivity.
  - f_equal; apply IH; intros E; apply H; right; exact E.
Qed.

Lemma del_set {V} (k : string) (v : V) (d : list (string * V)) : del k (set k v d) = del k d.
Proof.
  unfold del; induction d as [|[k' v'] d IH]; simpl.
  - rewrite String.eqb_refl; reflexivity.
  - destruct (String.eqb_spec k k') as [->|Hne]; simpl.
    + rewrite String.eqb_refl; reflexivity.
    + assert (E : String.eqb k' k = false) by (apply String.eqb_neq; congruence).
      rewrite E; simpl; f_equal; exact IH.
Qed.

Lemma del_length_nodup {V} (k : string) (d : list (string * V)) :
  NoDup (keys d) -> In k (keys d) -> S (length (del k d)) = length d.
Proof.
  unfold del; induction d as [|[k' v'] d IH]; simpl; [contradiction|].
  intros Hnd Hin; inversion Hnd as [|? ? Hnin Hnd']; subst.
  destruct (String.eqb_spec k' k) as [->|Hne]; simpl.
  - pose proof (del_absent k d Hnin) as E; unfold del in E; rewrite E; reflexivity.
  - destruct Hin as [E|Hin]; [congruence|].
    f_equal; exact (IH Hnd' Hin).
Qed.

Lemma length_keys {V} (d : list (string * V)) : length (keys d) = length d.
Proof. apply length_map. Qed.

Lemma set_set {V} (k : string) (v1 v2 : V) (d : list (string * V)) :
  PyDict.set k v2 (PyDict.set k v1 d) = PyDict.set k v2 d.
Proof.
  induction d as [|[k' v'] d IH]; simpl; [rewrite String.eqb_refl; reflexivity|].
  destruct (String.eqb k k') eqn:E; simpl.
  - rewrite String.eqb_refl; reflexivity.
  - rewrite E; f_equal; exact IH.
Qed.

End DictLemmas.

Module RegistryLemmas.
Import ADKLiveHandler RegistryFacts DictLemmas Auxiliary.

Lemma close_get_eq (h : handler) (sid : string) :
  PyDict.get sid (active_sessions (fst (close_session h sid))) = None.
Proof.
  unfold close_session; destruct (PyDict.get sid (active_sessions h)) eqn:E; simpl;
    [apply PyDictFacts.get_del_eq|exact E].
Qed.

Lemma close_get_neq (h : handler) (sid s : string) :
  s <> sid -> PyDict.get s (active_sessions (fst (close_session h sid))) = PyDict.get s (active_sessions h).
Proof.
  intros Hne; unfold close_session; destruct (PyDict.get sid (active_sessions h)); simpl;
    [apply PyDictFacts.get_del_neq; exact Hne|reflexivity].
Qed.

Lemma close_max (h : handler) (sid : string) :
  max_sessions (fst (close_session h sid)) = max_sessions h.
Proof. unfold close_session; destruct (PyDict.get sid (active_sessions h)); reflexivity. Qed.

Lemma close_keys (h : handler) (sid : string) :
  PyDict.keys (active_sessions (fst (close_session h sid))) =
  filter (fun k' => negb (String.eqb k' sid)) (PyDict.keys (active_sessions h)).
Proof.
  unfold close_session; destruct (PyDict.get sid (active_sessions h)) eqn:E; simpl; [apply keys_del|].
  symmetry; apply get_none_keys in E.
  rewrite <- keys_del; f_equal; exact (del_absent sid _ E).
Qed.

Lemma close_all_max L h : max_sessions (close_all L h) = max_sessions h.
Proof.
  unfold close_all; revert h; induction L as [|p L IH]; intros h; simpl; [reflexivity|].
  rewrite IH; apply close_max.
Qed.

Lemma close_all_notin L h k :
  ~ In k (map fst L) -> PyDict.get k (active_sessions (close_all L h)) = PyDict.get k (active_sessions h).
Proof.
  unfold close_all; revert h; induction L as [|p L IH]; intros h Hn; simpl; [reflexivity|].
  rewrite IH by (intros E; apply Hn; right; exact E).
  apply close_get_neq; intros E; apply Hn; left; symmetry; exact E.
Qed.

Lemma close_all_in L h k :
  In k (map fst L) -> PyDict.get k (active_sessions (close_all L h)) = None.
Proof.
  unfold close_all; revert h; induction L as [|p L IH]; intros h Hin; simpl; [contradiction|].
  destruct (in_dec string_dec k (map fst L)) as [Hk|Hk]; [exact (IH _ Hk)|].
  destruct Hin as [<-|Hin]; [|contradiction].
  change (PyDict.get (fst p) (active_sessions (close_all L (fst (close_session h (fst p))))) = None).
  rewrite close_all_notin by exact Hk; apply close_get_eq.
Qed.

Lemma close_all_length L h :
  NoDup (PyDict.keys (active_sessions h)) -> NoDup (map fst L) ->
  (forall k, In k (map fst L) -> In k (PyDict.keys (active_sessions h))) ->
  (length (active_sessions (close_all L h)) + length L = length (active_sessions h))%nat /\
  NoDup (PyDict.keys (active_sessions (close_all L h))).
Proof.
  unfold close_all; revert h; induction L as [|p L IH]; intros h Hnd HL Hsub; simpl.
  - split; [lia|exact Hnd].
  - inversion HL as [|? ? Hnin HL']; subst.
    set (h1 := fst (close_session h (fst p))).
    assert (Hk1 : PyDict.keys (active_sessions h1) =
                  filter (fun k' => negb (String.eqb k' (fst p))) (PyDict.keys (active_sessions h)))
      by apply close_keys.
    assert (Hnd1 : NoDup (PyDict.keys (active_sessions h1))) by (rewrite Hk1; apply NoDup_filter; exact Hnd).
    assert (Hsub1 : forall k, In k (map fst L) -> In k (PyDict.keys (active_sessions h1))).
    { intros k Hk; rewrite Hk1; apply filter_In; split; [apply Hsub; right; exact Hk|].
      destruct (String.eqb_spec k (fst p)) as [->|]; [contradiction|reflexivity]. }
    destruct (IH h1 Hnd1 HL' Hsub1) as [Hlen Hnd'].
    split; [|exact Hnd'].
    assert (Hl1 : S (length (active_sessions h1)) = length (active_sessions h)).
    { unfold h1, close_session.
      assert (Hin : In (fst p) (PyDict.keys (active_sessions h))) by (apply Hsub; left; reflexivity).
      destruct (PyDict.get (fst p) (active_sessions h)) eqn:E.
      - simpl; exact (del_length_nodup _ _ Hnd Hin).
      - apply get_none_keys in E; contradiction. }
    simpl in Hlen |- *; lia.
Qed.

Lemma insert_perm p l : Permutation (insert_by_created p l) (p :: l).
Proof.
  induction l as [|q l IH]; simpl; [reflexivity|].
  destruct (_ <=? _)%Z; [|reflexivity].
  etransitivity; [apply perm_skip; exact IH|apply perm_swap].
Qed.

Lemma sort_perm_acc l acc :
  Permutation (fold_left (fun acc p => insert_by_created p acc) l acc) (l ++ acc).
Proof.
  revert acc; induction l as [|p l IH]; intros acc; simpl; [reflexivity|].
  etransitivity; [apply IH|].
  etransitivity; [apply Permutation_app_head, insert_perm|].
  apply Permutation_sym, Permutation_middle.
Qed.

Lemma sort_perm l : Permutation (sort_by_created l) l.
Proof.
  unfold sort_by_created; rewrite <- (app_nil_r l) at 2; apply sort_perm_acc.
Qed.

Lemma insert_sorted p l : StronglySorted older l -> StronglySorted older (insert_by_created p l).
Proof.
  induction l as [|q l IH]; simpl; intros H.
  - constructor; constructor.
  - inversion H as [|? ? Hl Hq]; subst.
    destruct (Z.leb_spec (si_created_at (snd q)) (si_created_at (snd p))) as [Hle|Hgt].
    + constructor; [exact (IH Hl)|].
      apply Forall_forall; intros x Hx.
      apply (Permutation_in _ (insert_perm p l)) in Hx as [<-|Hx]; [exact Hle|].
      rewrite Forall_forall in Hq; exact (Hq x Hx).
    + constructor; [exact H|].
      constructor; [unfold older; lia|].
      apply Forall_forall; intros x Hx; rewrite Forall_forall in Hq.
      pose proof (Hq x Hx); unfold older in *; lia.
Qed.

Lemma sort_sorted_acc l acc :
  StronglySorted older acc ->
  StronglySorted older (fold_left (fun acc p => insert_by_created p acc) l acc).
Proof.
  revert acc; induction l as [|p l IH]; intros acc H; simpl; [exact H|].
  apply IH, insert_sorted, H.
Qed.

Lemma sorted_app {A} (R : A -> A -> Prop) l1 l2 :
  StronglySorted R (l1 ++ l2) -> forall x y, In x l1 -> In y l2 -> R x y.
Proof.
  induction l1 as [|a l1 IH]; simpl; [contradiction|].
  intros H x y Hx Hy; inversion H as [|? ? H' Ha]; subst.
  destruct Hx as [<-|Hx].
  - rewrite Forall_forall in Ha; apply Ha, in_or_app; right; exact Hy.
  - exact (IH H' x y Hx Hy).
Qed.

Lemma cleanup_max h : max_sessions (_cleanup_old_sessions h) = max_sessions h.
Proof.
  unfold _cleanup_old_sessions; destruct (Nat.leb _ _); [reflexivity|].
  apply (close_all_max _ h).
Qed.

(** Above capacity, the closed sessions are the first
    [len - max_sessions + 1] of the sorted list, and they are distinct. *)
Lemma cleanup_shape h :
  NoDup (PyDict.keys (active_sessions h)) -> (max_sessions h < length (active_sessions h))%nat ->
  let items := sort_by_created (active_sessions h) in
  let L := firstn (length (active_sessions h) - max_sessions h + 1) items in
  _cleanup_old_sessions h = close_all L h /\
  NoDup (map fst L) /\ (forall k, In k (map fst L) -> In k (PyDict.keys (active_sessions h))) /\
  length L = Nat.min (length (active_sessions h) - max_sessions h + 1) (length (active_sessions h)).
Proof.
  intros Hnd Hgt items L.
  assert (Hperm : Permutation items (active_sessions h)) by apply sort_perm.
  assert (Hkp : Permutation (map fst items) (PyDict.keys (active_sessions h)))
    by (apply Permutation_map; exact Hperm).
  assert (Hnd_items : NoDup (map fst items))
    by (apply (Permutation_NoDup (Permutation_sym Hkp)); exact Hnd).
  assert (Hsplit : map fst items = (map fst L ++ map fst (skipn (length (active_sessions h) - max_sessions h + 1) items))%list)
    by (rewrite <- map_app; unfold L; rewrite firstn_skipn; reflexivity).
  split; [unfold _cleanup_old_sessions; destruct (Nat.leb_spec (length (active_sessions h)) (max_sessions h)); [lia|reflexivity]|].
  split; [rewrite Hsplit in Hnd_items; exact (NoDup_app_remove_r _ _ Hnd_items)|].
  split.
  - intros k Hk; apply (Permutation_in _ Hkp); rewrite Hsplit; apply in_or_app; left; exact Hk.
  - unfold L; rewrite length_firstn, (Permutation_length Hperm); reflexivity.
Qed.

Lemma cleanup_length h :
  NoDup (PyDict.keys (active_sessions h)) -> (max_sessions h < length (active_sessions h))%nat ->
  length (active_sessions (_cleanup_old_sessions h)) = (max_sessions h - 1)%nat /\
  NoDup (PyDict.keys (active_sessions (_cleanup_old_sessions h))).
Proof.
  intros Hnd Hgt.
  destruct (cleanup_shape h Hnd Hgt) as [E [HL [Hsub Hlen]]]; rewrite E.
  destruct (close_all_length _ h Hnd HL Hsub) as [Hl Hnd']; split; [|exact Hnd'].
  rewrite Hlen in Hl; lia.
Qed.

Lemma cleanup_bound h :
  NoDup (PyDict.keys (active_sessions h)) ->
  (length (active_sessions (_cleanup_old_sessions h)) <= max_sessions h)%nat /\
  NoDup (PyDict.keys (active_sessions (_cleanup_old_sessions h))).
Proof.
  intros Hnd.
  destruct (Nat.leb_spec (length (active_sessions h)) (max_sessions h)) as [Hle|Hgt].
  - rewrite (cleanup_noop h Hle); split; assumption.
  - destruct (cleanup_length h Hnd Hgt) as [Hl Hnd']; split; [lia|exact Hnd'].
Qed.

Lemma create_snd h sid uid now :
  snd (create_auto_session h sid uid now) =
  Some (mk_session_info sid uid now true true [LRContent initial_greeting] false).
Proof.
  unfold create_auto_session, _send_text_to_session; simpl.
  rewrite PyDictFacts.get_set_eq; simpl; rewrite PyDictFacts.get_set_eq; reflexivity.
Qed.

(** [views_delete_all] deletes every key of [active_sessions] in turn. *)
Lemma views_delete_fold (ks : list string) (h : handler) :
  let h' := fold_left (fun h' sid =>
      match PyDict.get sid (active_sessions h') with
      | None => h'
      | Some i =>
          with_active h' (PyDict.del sid
                            (PyDict.set sid (set_active false i) (active_sessions h')))
      end) ks h in
  active_sessions h' = fold_left (fun d k => PyDict.del k d) ks (active_sessions h) /\
  user_sessions h' = user_sessions h /\ max_sessions h' = max_sessions h.
Proof.
  revert h; induction ks as [|k ks IH]; intros h; simpl; [repeat split|].
  destruct (PyDict.get k (active_sessions h)) as [i|] eqn:E.
  - destruct (IH (with_active h (PyDict.del k (PyDict.set k (set_active false i) (active_sessions h)))))
      as [A [U M]].
    rewrite A, U, M; simpl; rewrite del_set; repeat split.
  - destruct (IH h) as [A [U M]]; rewrite A, U, M; repeat split.
    apply get_none_keys in E; rewrite (del_absent k _ E); reflexivity.
Qed.

Lemma fold_del_all (ks : list string) (d : list (string * session_info)) :
  (forall k, In k (PyDict.keys d) -> In k ks) -> fold_left (fun d k => PyDict.del k d) ks d = [].
Proof.
  revert d; induction ks as [|k ks IH]; intros d H; simpl.
  - destruct d as [|p d]; [reflexivity|].
    exfalso; apply (H (fst p)); left; reflexivity.
  - apply IH; intros k' Hk'; rewrite keys_del in Hk'; apply filter_In in Hk' as [Hk' Hne].
    destruct (H k' Hk') as [->|Hin]; [|exact Hin].
    rewrite String.eqb_refl in Hne; discriminate.
Qed.

Lemma views_delete_all_eq h :
  active_sessions (views_delete_all h) = [] /\
  user_sessions (views_delete_all h) = user_sessions h /\
  max_sessions (views_delete_all h) = max_sessions h.
Proof.
  unfold views_delete_all; destruct (views_delete_fold (PyDict.keys (active_sessions h)) h) as [A [U M]].
  rewrite A, U, M; split; [|split; reflexivity].
  apply fold_del_all; exact (fun k H => H).
Qed.

Lemma cleanup_all_eq h :
  cleanup_all_sessions h = mk_handler [] [] (max_sessions h).
Proof.
  unfold cleanup_all_sessions; f_equal.
  generalize (PyDict.keys (active_sessions h)); intros l; revert h; induction l as [|k l IH]; intros h;
    simpl; [reflexivity|rewrite IH; apply close_max].
Qed.

Lemma audio_keys h sid b :
  PyDict.keys (active_sessions (fst (process_audio_input h sid b))) = PyDict.keys (active_sessions h) /\
  max_sessions (fst (process_audio_input h sid b)) = max_sessions h.
Proof.
  unfold process_audio_input; destruct (PyDict.get sid (active_sessions h)) eqn:E; simpl;
    [|split; reflexivity].
  split; [apply DictLemmas.keys_set_present; rewrite E; discriminate|reflexivity].
Qed.

Lemma text_keys h sid t :
  PyDict.keys (active_sessions (fst (process_text_input h sid t))) = PyDict.keys (active_sessions h) /\
  max_sessions (fst (process_text_input h sid t)) = max_sessions h.
Proof.
  unfold process_text_input; destruct (PyDict.get sid (active_sessions h)) eqn:E; simpl;
    [|split; reflexivity].
  split; [apply DictLemmas.keys_set_present; rewrite E; discriminate|reflexivity].
Qed.

End RegistryLemmas.

Module RegistryExtras.
Import ADKLiveHandler Lifecycle RegistryFacts DictLemmas RegistryLemmas Auxiliary.

(** [close_session] removes exactly the closed session: it returns [True],
    the id is no longer registered, every other session keeps its entry,
    and the only user mapping it can remove is the one of the closed
    session's [user_id]. *)
Theorem close_session_frame (h : handler) (sid : string) :
  let (h', ok) := close_session h sid in
  ok = true /\ PyDict.get sid (active_sessions h') = None /\
  (forall s, s <> sid -> PyDict.get s (active_sessions h') = PyDict.get s (active_sessions h)) /\
  max_sessions h' = max_sessions h /\
  (forall u, PyDict.get u (user_sessions h') = PyDict.get u (user_sessions h) \/
     (PyDict.get u (user_sessions h') = None /\
      exists i, PyDict.get sid (active_sessions h) = Some i /\ si_user_id i = u)).
Proof.
  unfold close_session; destruct (PyDict.get sid (active_sessions h)) as [i|] eqn:E; simpl.
  - split; [reflexivity|]; split; [apply PyDictFacts.get_del_eq|].
    split; [intros s Hne; apply PyDictFacts.get_del_neq; exact Hne|].
    split; [reflexivity|].
    intros u; destruct (truthy (si_user_id i) && PyDict.mem (si_user_id i) (user_sessions h));
      [|left; reflexivity].
    destruct (String.eqb_spec u (si_user_id i)) as [->|Hne].
    + right; split; [apply PyDictFacts.get_del_eq|exists i; split; reflexivity].
    + left; apply PyDictFacts.get_del_neq; exact Hne.
  - split; [reflexivity|]; split; [exact E|]; split; [intros; reflexivity|].
    split; [reflexivity|]; intros u; left; reflexivity.
Qed.

(** [process_text_input] on an unknown id returns [False] and changes
    nothing; on a registered session it returns [True], appends the text
    to that session's request queue, and leaves the order of the registry,
    every other session, [user_sessions] and [max_sessions] unchanged. *)
Theorem process_text_input_frame (h : handler) (sid text : string) :
  match PyDict.get sid (active_sessions h) with
  | None => process_text_input h sid text = (h, false)
  | Some i =>
      let (h', ok) := process_text_input h sid text in
      ok = true /\
      PyDict.get sid (active_sessions h') = Some (push_queue (LRContent text) i) /\
      PyDict.keys (active_sessions h') = PyDict.keys (active_sessions h) /\
      (forall s, s <> sid -> PyDict.get s (active_sessions h') = PyDict.get s (active_sessions h)) /\
      user_sessions h' = user_sessions h /\ max_sessions h' = max_sessions h
  end.
Proof.
  unfold process_text_input; destruct (PyDict.get sid (active_sessions h)) as [i|] eqn:E;
    [|reflexivity].
  simpl; split; [reflexivity|]; split; [apply PyDictFacts.get_set_eq|].
  split; [apply keys_set_present; rewrite E; discriminate|].
  split; [intros s Hne; apply PyDictFacts.get_set_neq; exact Hne|].
  split; reflexivity.
Qed.

(** [process_audio_input] on an unknown id returns [False] and changes
    nothing; on a registered session it returns [True], appends the audio
    as a realtime blob to that session's queue and leaves the session
    marked [is_active = True], the rest of the registry unchanged. *)
Theorem process_audio_input_frame (h : handler) (sid : string) (audio : list Byte.byte) :
  match PyDict.get sid (active_sessions h) with
  | None => process_audio_input h sid audio = (h, false)
  | Some i =>
      let (h', ok) := process_audio_input h sid audio in
      ok = true /\
      PyDict.get sid (active_sessions h') = Some (push_queue (LRRealtime audio) (set_active true i)) /\
      PyDict.keys (active_sessions h') = PyDict.keys (active_sessions h) /\
      (forall s, s <> sid -> PyDict.get s (active_sessions h') = PyDict.get s (active_sessions h)) /\
      user_sessions h' = user_sessions h /\ max_sessions h' = max_sessions h
  end.
Proof.
  unfold process_audio_input; destruct (PyDict.get sid (active_sessions h)) as [i|] eqn:E;
    [|reflexivity].
  assert (Ei : (if si_is_active i then i else set_active true i) = set_active true i)
    by (destruct i as [a b c d e f g]; destruct d; reflexivity).
  rewrite Ei; simpl; split; [reflexivity|]; split; [apply PyDictFacts.get_set_eq|].
  split; [apply keys_set_present; rewrite E; discriminate|].
  split; [intros s Hne; apply PyDictFacts.get_set_neq; exact Hne|].
  split; reflexivity.
Qed.

(** [create_auto_session] always returns the stored session info: the
    given ids, [created_at = now], active, conversation started, and a
    request queue holding exactly the initial greeting; afterwards
    [get_user_session(user_id)] is the new session. *)
Theorem create_auto_session_result (h : handler) (sid uid : string) (now : Z) :
  let (h', r) := create_auto_session h sid uid now in
  r = Some (mk_session_info sid uid now true true [LRContent initial_greeting] false) /\
  PyDict.get sid (active_sessions h') = r /\
  get_user_session h' uid = Some sid /\ max_sessions h' = max_sessions h.
Proof.
  unfold create_auto_session, _send_text_to_session; simpl.
  rewrite PyDictFacts.get_set_eq; simpl; rewrite PyDictFacts.get_set_eq.
  split; [reflexivity|]; split; [reflexivity|].
  split; [unfold get_user_session; simpl; apply PyDictFacts.get_set_eq|apply cleanup_max].
Qed.

(** Above capacity, [_cleanup_old_sessions] leaves [max_sessions - 1]
    sessions, and every session it closes is at least as old (by
    [created_at]) as every session it keeps. *)
Theorem cleanup_old_sessions_evicts_oldest (h : handler) :
  NoDup (PyDict.keys (active_sessions h)) -> (max_sessions h < length (active_sessions h))%nat ->
  let h' := _cleanup_old_sessions h in
  length (active_sessions h') = (max_sessions h - 1)%nat /\
  (forall s i e ie,
     PyDict.get s (active_sessions h') = Some i ->
     PyDict.get e (active_sessions h) = Some ie -> PyDict.get e (active_sessions h') = None ->
     (si_created_at ie <= si_created_at i)%Z).
Proof.
  intros Hnd Hgt h'.
  split; [exact (proj1 (cleanup_length h Hnd Hgt))|].
  intros s i e ie Hs He He'.
  destruct (cleanup_shape h Hnd Hgt) as [E [HL [Hsub _]]].
  set (k := (length (active_sessions h) - max_sessions h + 1)%nat) in *.
  set (items := sort_by_created (active_sessions h)) in *.
  assert (Hperm : Permutation items (active_sessions h)) by apply sort_perm.
  assert (Hsorted : StronglySorted older items) by (apply sort_sorted_acc; constructor).
  rewrite <- (firstn_skipn k items) in Hsorted.
  unfold h' in Hs, He'; rewrite E in Hs, He'.
  (* the evicted session is among the first [k] *)
  destruct (in_dec string_dec e (map fst (firstn k items))) as [Hein|Hein];
    [|rewrite close_all_notin in He' by exact Hein; congruence].
  apply in_map_iff in Hein as [[e' ie'] [Ee Hp]]; simpl in Ee; subst e'.
  assert (Hie : ie' = ie).
  { assert (Hin : In (e, ie') (active_sessions h))
      by (apply (Permutation_in _ Hperm); rewrite <- (firstn_skipn k items);
          apply in_or_app; left; exact Hp).
    rewrite (get_in_nodup e ie' _ Hnd Hin) in He; congruence. }
  subst ie'.
  (* the kept session is among the others *)
  pose proof (LifecycleClaims.fold_close_entries _ h s i Hs) as Hs0.
  assert (Hin : In (s, i) items) by (apply (Permutation_in _ (Permutation_sym Hperm)), get_some_in, Hs0).
  rewrite <- (firstn_skipn k items) in Hin; apply in_app_or in Hin as [Hin|Hin].
  - exfalso; rewrite (close_all_in (firstn k items) h s) in Hs; [discriminate|].
    apply (in_map fst) in Hin; exact Hin.
  - exact (sorted_app older _ _ Hsorted (e, ie) (s, i) Hp Hin).
Qed.

Lemma cleanup_old_sessions_evicts_oldest_witness :
  let h := fst (create_auto_session Scenarios.full_registry "s10" "user_s10" 10) in
  NoDup (PyDict.keys (active_sessions h)) /\ (max_sessions h < length (active_sessions h))%nat /\
  length (active_sessions (_cleanup_old_sessions h)) = 9%nat.
Proof.
  intros h.
  assert (Hnd : NoDup (PyDict.keys (active_sessions h))).
  { vm_compute; repeat constructor; simpl; intuition discriminate. }
  assert (Hgt : (max_sessions h < length (active_sessions h))%nat) by (vm_compute; lia).
  split; [exact Hnd|]; split; [exact Hgt|].
  exact (proj1 (cleanup_old_sessions_evicts_oldest h Hnd Hgt)).
Defined.

Lemma reach_create issued h sid uid now :
  reachable issued h -> ~ In sid issued ->
  NoDup (PyDict.keys (active_sessions h)) ->
  let h' := fst (create_auto_session h sid uid now) in
  NoDup (PyDict.keys (active_sessions h')) /\
  (length (active_sessions h') <= S (max_sessions h))%nat /\ max_sessions h' = max_sessions h.
Proof.
  intros R Hf Hnd h'.
  destruct (cleanup_bound h Hnd) as [Hl1 Hnd1].
  set (h1 := _cleanup_old_sessions h) in *.
  assert (Hn1 : PyDict.get sid (active_sessions h1) = None).
  { destruct (PyDict.get sid (active_sessions h1)) as [i|] eqn:G; [|reflexivity].
    apply LifecycleClaims.cleanup_entries in G.
    exfalso; apply Hf; exact (proj2 (LifecycleClaims.reachable_inv issued h R sid i G)). }
  set (info := mk_session_info sid uid now true true [] false).
  set (a2 := PyDict.set sid info (active_sessions h1)).
  assert (Hk2 : PyDict.keys a2 = (PyDict.keys (active_sessions h1) ++ [sid])%list)
    by (apply keys_set_new; exact Hn1).
  assert (Hk3 : PyDict.keys (active_sessions h') = PyDict.keys a2).
  { unfold h', create_auto_session, _send_text_to_session; fold h1; fold info; fold a2; simpl.
    assert (G : PyDict.get sid a2 = Some info) by apply PyDictFacts.get_set_eq.
    rewrite G; simpl; apply keys_set_present; rewrite G; discriminate. }
  assert (Hm : max_sessions h' = max_sessions h).
  { unfold h', create_auto_session, _send_text_to_session; simpl.
    rewrite PyDictFacts.get_set_eq; simpl; apply cleanup_max. }
  rewrite Hk2 in Hk3.
  split; [|split; [|exact Hm]].
  - rewrite Hk3; apply NoDup_app; [exact Hnd1|repeat constructor; simpl; tauto|].
    intros a Ha [<-|[]]; apply get_none_keys in Hn1; contradiction.
  - rewrite <- length_keys, Hk3, length_app; rewrite length_keys; simpl; lia.
Qed.

Lemma reach_set_same (h h' : handler) :
  PyDict.keys (active_sessions h') = PyDict.keys (active_sessions h) ->
  max_sessions h' = max_sessions h ->
  NoDup (PyDict.keys (active_sessions h)) ->
  NoDup (PyDict.keys (active_sessions h')) /\
  length (active_sessions h') = length (active_sessions h) /\ max_sessions h' = max_sessions h.
Proof.
  intros Hk Hm Hnd; rewrite Hk; split; [exact Hnd|]; split; [|exact Hm].
  rewrite <- (length_keys (active_sessions h')), <- (length_keys (active_sessions h)), Hk; reflexivity.
Qed.

(** Every registry reachable from [ADKLiveHandler()] keeps
    [max_sessions = 10], has distinct session ids, and never holds more
    than [max_sessions + 1] (eleven) sessions. *)
Theorem reachable_registry_bound (issued : list string) (h : handler) :
  reachable issued h ->
  max_sessions h = 10%nat /\ NoDup (PyDict.keys (active_sessions h)) /\
  (length (active_sessions h) <= S (max_sessions h))%nat.
Proof.
  intros R; induction R as [|issued h o R IH F].
  - split; [reflexivity|]; split; [constructor|simpl; lia].
  - destruct IH as [Hm [Hnd Hl]].
    destruct o as [sid uid now|sid|sid b|sid t| |]; cbn [apply_op op_fresh] in F |- *.
    + destruct (reach_create issued h sid uid now R F Hnd) as [A [B C]].
      rewrite C; split; [exact Hm|]; split; [exact A|lia].
    + rewrite close_max; split; [exact Hm|].
      rewrite close_keys; split; [apply NoDup_filter; exact Hnd|].
      rewrite <- length_keys, close_keys.
      pose proof (filter_length_le (fun k' => negb (String.eqb k' sid)) (PyDict.keys (active_sessions h))).
      rewrite length_keys in *; lia.
    + destruct (audio_keys h sid b) as [Hk Hm'].
      destruct (reach_set_same h _ Hk Hm' Hnd) as [A [B C]].
      rewrite B, C; split; [exact Hm|]; split; [exact A|exact Hl].
    + destruct (text_keys h sid t) as [Hk Hm'].
      destruct (reach_set_same h _ Hk Hm' Hnd) as [A [B C]].
      rewrite B, C; split; [exact Hm|]; split; [exact A|exact Hl].
    + rewrite cleanup_all_eq; simpl; split; [exact Hm|]; split; [constructor|lia].
    + destruct (views_delete_all_eq h) as [A [_ M]]; rewrite A, M.
      split; [exact Hm|]; split; [constructor|simpl; lia].
Qed.

Lemma reachable_registry_bound_witness :
  let h := fst (create_auto_session init_handler "s1" "alice" 1) in
  reachable ["s1"] h /\ max_sessions h = 10%nat /\ NoDup (PyDict.keys (active_sessions h)) /\
  (length (active_sessions h) <= S (max_sessions h))%nat.
Proof.
  intros h.
  assert (R : reachable ["s1"] h).
  { apply (reach_step [] _ (OpCreate "s1" "alice" 1)); [apply reach_init|simpl; tauto]. }
  split; [exact R|]; exact (reachable_registry_bound ["s1"] h R).
Defined.

(** The admin [DELETE] of [views.py] empties [active_sessions] but leaves
    [user_sessions] untouched: afterwards no session is registered, yet
    [get_user_session] still returns, for every user, the id it returned
    before. *)
Theorem views_delete_keeps_user_mappings (h : handler) :
  let h' := views_delete_all h in
  (forall s, PyDict.get s (active_sessions h') = None) /\
  (forall u, get_user_session h' u = get_user_session h u) /\
  max_sessions h' = max_sessions h.
Proof.
  intros h'; destruct (views_delete_all_eq h) as [A [U M]].
  unfold h', get_user_session; rewrite A, U, M.
  split; [reflexivity|]; split; reflexivity.
Qed.

End RegistryExtras.

Module ServerExtras.
Import ADKLiveHandler WebSocketServer ServerScenarios RegistryLemmas Auxiliary.

Lemma audio_get_neq h sid b s :
  s <> sid ->
  PyDict.get s (active_sessions (fst (process_audio_input h sid b))) = PyDict.get s (active_sessions h).
Proof.
  intros Hne; unfold process_audio_input; destruct (PyDict.get sid (active_sessions h)); simpl;
    [apply PyDictFacts.get_set_neq; exact Hne|reflexivity].
Qed.

Lemma text_get_neq h sid t s :
  s <> sid ->
  PyDict.get s (active_sessions (fst (process_text_input h sid t))) = PyDict.get s (active_sessions h).
Proof.
  intros Hne; unfold process_text_input; destruct (PyDict.get sid (active_sessions h)); simpl;
    [apply PyDictFacts.get_set_neq; exact Hne|reflexivity].
Qed.

Lemma keeps_refl sid c : keeps sid c c.
Proof. split; reflexivity. Qed.

Lemma keeps_trans sid c1 c2 c3 : keeps sid c1 c2 -> keeps sid c2 c3 -> keeps sid c1 c3.
Proof.
  intros [A B] [C D]; split; [congruence|].
  intros s Hne; rewrite D, B by exact Hne; reflexivity.
Qed.

Lemma frame_keeps json_loads b64decode h sid tf :
  keeps sid (mk_conn h (Some sid)) (fst (handle_frame json_loads b64decode (mk_conn h (Some sid)) tf)).
Proof.
  destruct tf as [now [b|s]]; cbn [handle_frame].
  - split; [reflexivity|]; intros s Hne; apply audio_get_neq; exact Hne.
  - destruct (json_loads s) as [j|e|e]; [|apply keeps_refl..].
    destruct j as [| | | | |f]; try apply keeps_refl.
    unfold handle_text_message.
    destruct (field_is f "type" "ping"); [apply keeps_refl|].
    destruct (field_is f "type" "get_status"); [apply keeps_refl|].
    destruct (field_is f "type" "stop_session").
    { unfold handle_stop_session; cbn [c_session c_handler].
      pose proof (close_get_neq h sid) as G.
      destruct (close_session h sid) as [h' ok]; simpl in G.
      destruct ok; (split; [reflexivity|]); exact G. }
    destruct (field_is f "type" "text_input").
    { unfold handle_text_input; cbn [c_session c_handler].
      destruct (json_truthy _); [|apply keeps_refl]; simpl.
      destruct (match PyDict.get "text" f with Some v => v | None => JStr "" end) as [| | |t| |];
        try apply keeps_refl.
      pose proof (text_get_neq h sid t) as G.
      destruct (process_text_input h sid t) as [h' ok]; simpl in G.
      split; [reflexivity|]; exact G. }
    destruct (PyDict.get "mime_type" f) as [[| | |m| |]|]; try apply keeps_refl.
    destruct (String.prefix "audio/pcm" m); [|apply keeps_refl].
    unfold handle_json_audio_message; cbn [c_session c_handler].
    destruct (PyDict.get "data" f) as [d|]; [|apply keeps_refl].
    destruct (negb (json_truthy d)); [apply keeps_refl|].
    destruct (b64decode d) as [audio|e]; [|apply keeps_refl].
    split; [reflexivity|]; intros s' Hne; apply audio_get_neq; exact Hne.
Qed.

Lemma frames_keeps json_loads b64decode sid frames : forall h,
  keeps sid (mk_conn h (Some sid)) (fst (handle_frames json_loads b64decode (mk_conn h (Some sid)) frames)).
Proof.
  induction frames as [|tf rest IH]; intros h; [apply keeps_refl|].
  cbn [handle_frames].
  pose proof (frame_keeps json_loads b64decode h sid tf) as K1.
  destruct (handle_frame json_loads b64decode (mk_conn h (Some sid)) tf) as [[h1 s1] o1].
  simpl in K1; destruct K1 as [S1 K1]; simpl in S1; subst s1.
  pose proof (IH h1) as K2.
  destruct (handle_frames json_loads b64decode (mk_conn h1 (Some sid)) rest) as [c2 o2].
  simpl in K2 |- *.
  apply (keeps_trans sid _ (mk_conn h1 (Some sid))); [split; [reflexivity|exact K1]|exact K2].
Qed.

(** [handle_client] sends [connection_established] and then
    [auto_session_started] for the session it creates; whatever frames
    the client sends, when the connection ends that session is no longer
    registered, and every other session has the entry it had right after
    the session was created: a connection only touches its own session. *)
Theorem handle_client_cleans_up json_loads b64decode (h : handler)
    (client_id uid sid : string) (now : Z) (frames : list (Z * frame)) :
  let h1 := fst (create_auto_session h sid uid now) in
  let (h', out) := handle_client json_loads b64decode h client_id uid sid now frames in
  firstn 2 out = [WsConnectionEstablished client_id; WsAutoSessionStarted sid uid] /\
  PyDict.get sid (active_sessions h') = None /\
  (forall s, s <> sid -> PyDict.get s (active_sessions h') = PyDict.get s (active_sessions h1)).
Proof.
  intros h1; unfold handle_client.
  pose proof (create_snd h sid uid now) as Cs.
  assert (Hh : h1 = fst (create_auto_session h sid uid now)) by reflexivity; clearbody h1.
  destruct (create_auto_session h sid uid now) as [h1' r] eqn:E.
  simpl in Cs, Hh; subst r h1; cbn [si_session_id].
  pose proof (frames_keeps json_loads b64decode sid frames h1') as [_ K].
  destruct (handle_frames json_loads b64decode (mk_conn h1' (Some sid)) frames) as [c o].
  simpl in K |- *.
  split; [reflexivity|]; split; [apply close_get_eq|].
  intros s Hne; rewrite close_get_neq by exact Hne; apply K; exact Hne.
Qed.

(** After [stop_session] the connection keeps the stopped id: a later
    binary audio frame is dropped without a reply and without changing
    anything, a non-empty [text_input] is answered with "Failed to process
    text input", and [get_status] reports no current session. *)
Theorem after_stop_session (h : handler) (sid t : string) (audio : list Byte.byte) :
  t <> "" ->
  let (c1, o1) := handle_stop_session (mk_conn h (Some sid)) in
  o1 = [WsSessionStopped sid] /\ c_session c1 = Some sid /\
  handle_audio_data c1 audio = (c1, []) /\
  handle_text_input c1 [("text", JStr t)] = (c1, [WsError "Failed to process text input"]) /\
  handle_get_status c1 = (c1, [WsStatusResponse (length (active_sessions (c_handler c1))) None]).
Proof.
  intros Ht.
  destruct (ServerClaims.close_session_result h sid) as [h1 [E G]].
  unfold handle_stop_session; cbn [c_session c_handler]; rewrite E.
  split; [reflexivity|]; split; [reflexivity|].
  split; [unfold handle_audio_data, process_audio_input; simpl; rewrite G; reflexivity|].
  split.
  - assert (T : truthy t = true) by (unfold truthy; apply String.eqb_neq in Ht; rewrite Ht; reflexivity).
    unfold handle_text_input; cbn [c_session c_handler].
    change (PyDict.get "text" [("text", JStr t)]) with (Some (JStr t)).
    cbn [json_truthy]; rewrite T; cbn [negb].
    unfold process_text_input; rewrite G; reflexivity.
  - unfold handle_get_status; simpl; rewrite G; reflexivity.
Qed.

Lemma after_stop_session_witness :
  "hi" <> "" /\
  handle_text_input (fst (handle_stop_session (mk_conn alice_registry (Some "s1"))))
    [("text", JStr "hi")] =
  (fst (handle_stop_session (mk_conn alice_registry (Some "s1"))),
   [WsError "Failed to process text input"]).
Proof.
  assert (Ht : "hi" <> "") by discriminate.
  split; [exact Ht|].
  pose proof (after_stop_session alice_registry "s1" "hi" [] Ht) as A.
  destruct (handle_stop_session (mk_conn alice_registry (Some "s1"))) as [c1 o1].
  exact (proj1 (proj2 (proj2 (proj2 A)))).
Defined.

(** A text frame whose JSON is none of the four commands ([ping],
    [get_status], [stop_session], [text_input]) and not an [audio/pcm]
    message leaves the connection as it was. It is ignored silently when
    it is an object without [mime_type] or with a string [mime_type]. It is
    answered with "Processing error: " and the [AttributeError] text when
    it is not an object ([message.get] fails), or when its [mime_type] is
    not a string ([.startswith] fails). *)
Theorem unknown_message_ignored json_loads b64decode (c : conn) (now : Z) (s : string) (j : json) :
  json_loads s = Loaded j ->
  (forall f, j = JObj f ->
     field_is f "type" "ping" = false /\ field_is f "type" "get_status" = false /\
     field_is f "type" "stop_session" = false /\ field_is f "type" "text_input" = false /\
     forall m, PyDict.get "mime_type" f = Some (JStr m) -> String.prefix "audio/pcm" m = false) ->
  handle_frame json_loads b64decode c (now, Text s) =
  (c, match j with
      | JObj f => match PyDict.get "mime_type" f with
                  | None => []
                  | Some (JStr _) => []
                  | Some v => [WsError ("Processing error: " ++ attribute_error v "startswith")]
                  end
      | _ => [WsError ("Processing error: " ++ attribute_error j "get")]
      end).
Proof.
  intros Hj Hf; cbn [handle_frame]; rewrite Hj.
  destruct j as [| | | | |f]; try reflexivity.
  destruct (Hf f eq_refl) as [P1 [P2 [P3 [P4 P5]]]].
  unfold handle_text_message; rewrite P1, P2, P3, P4.
  destruct (PyDict.get "mime_type" f) as [[| | |m| |]|] eqn:M; try reflexivity.
  rewrite (P5 m eq_refl); reflexivity.
Qed.

Lemma unknown_message_ignored_witness :
  handle_frame (fun _ => Loaded (JNum 5)) toy_b64decode (mk_conn alice_registry (Some "s1"))
    (0%Z, Text "5") =
  (mk_conn alice_registry (Some "s1"),
   [WsError "Processing error: 'int' object has no attribute 'get'"]).
Proof.
  rewrite (unknown_message_ignored (fun _ => Loaded (JNum 5)) toy_b64decode _ 0%Z "5" (JNum 5) eq_refl).
  - reflexivity.
  - intros f Hf; discriminate Hf.
Defined.

(** A JSON audio message ([mime_type] starting with [audio/pcm], base64
    [data] that decodes) has the same effect and the same (empty or error)
    reply as a binary frame carrying the decoded bytes, with or without a
    session on the connection. *)
Theorem json_audio_same_as_binary json_loads b64decode (c : conn) (now now' : Z)
    (s m d : string) (f : list (string * json)) (audio : list Byte.byte) :
  json_loads s = Loaded (JObj f) ->
  field_is f "type" "ping" = false -> field_is f "type" "get_status" = false ->
  field_is f "type" "stop_session" = false -> field_is f "type" "text_input" = false ->
  PyDict.get "mime_type" f = Some (JStr m) -> String.prefix "audio/pcm" m = true ->
  PyDict.get "data" f = Some (JStr d) -> d <> "" -> b64decode (JStr d) = inl audio ->
  handle_frame json_loads b64decode c (now, Text s) =
  handle_frame json_loads b64decode c (now', Binary audio).
Proof.
  intros Hj P1 P2 P3 P4 Hm Hp Hd Hne Hb.
  cbn [handle_frame]; rewrite Hj; unfold handle_text_message; rewrite P1, P2, P3, P4, Hm, Hp.
  unfold handle_json_audio_message, handle_audio_data.
  destruct (c_session c) as [sid|]; [|reflexivity].
  assert (T : truthy d = true) by (unfold truthy; apply String.eqb_neq in Hne; rewrite Hne; reflexivity).
  rewrite Hd; cbn [json_truthy]; rewrite T; cbn [negb]; rewrite Hb; reflexivity.
Qed.

Lemma json_audio_same_as_binary_witness :
  handle_frame (fun _ => Loaded (JObj json_audio_fields)) (fun _ => inl [Byte.x00; Byte.x01])
    (mk_conn alice_registry (Some "s1")) (0%Z, Text "frame") =
  handle_frame (fun _ => Loaded (JObj json_audio_fields)) (fun _ => inl [Byte.x00; Byte.x01])
    (mk_conn alice_registry (Some "s1")) (0%Z, Binary [Byte.x00; Byte.x01]).
Proof.
  apply (json_audio_same_as_binary (fun _ => Loaded (JObj json_audio_fields))
           (fun _ => inl [Byte.x00; Byte.x01])
           _ 0%Z 0%Z "frame" "audio/pcm;rate=16000" "AAE=" json_audio_fields);
    try reflexivity; discriminate.
Defined.

End ServerExtras.

Module BridgeExtras.
Import ADKLiveHandler WebSocketServer ADKBridge BridgeServer.

Lemma field_is_truthy f key s :
  field_is f key s = true -> s <> "" ->
  json_truthy (match PyDict.get key f with Some v => v | None => JNull end) = true.
Proof.
  unfold field_is; destruct (PyDict.get key f) as [[| | |s'| |]|]; try (intros H; discriminate H).
  intros E Hne; apply String.eqb_eq in E; subst s'; cbn [json_truthy]; unfold truthy.
  apply String.eqb_neq in Hne; rewrite Hne; reflexivity.
Qed.

Lemma init_message gen_user_id gen_session_id b64decode st f :
  field_is f "type" "initialize_session" = true ->
  _handle_message gen_user_id gen_session_id b64decode st (JObj f) =
  Some (_initialize_session gen_user_id gen_session_id st f).
Proof.
  intros H; unfold _handle_message.
  rewrite (field_is_truthy f "type" "initialize_session" H) by discriminate.
  cbn [negb]; rewrite H; reflexivity.
Qed.

(** A second [initialize_session] on the same connection replaces the
    connection's mapping but not the first session: when the client then
    disconnects, only the second session is cleaned up, and the first one
    stays in [active_sessions] with [is_active = True]. *)
Theorem reinitialize_leaks_first_session gen_user_id gen_session_id b64decode loads
    (st : bridge) (f1 f2 : frame) (d1 d2 : list (string * json)) :
  loads f1 = Loaded (JObj d1) -> loads f2 = Loaded (JObj d2) ->
  field_is d1 "type" "initialize_session" = true ->
  field_is d2 "type" "initialize_session" = true ->
  let n := b_counter st in
  let u1 := init_user_id gen_user_id d1 n in
  let s1 := gen_session_id u1 n in
  let u2 := init_user_id gen_user_id d2 (S n) in
  let s2 := gen_session_id u2 (S n) in
  s1 <> s2 ->
  let (st', out) := bridge_handle_client gen_user_id gen_session_id b64decode loads st [f1; f2] in
  PyDict.get s1 (b_sessions st') = Some (mk_voice_session s1 u1 true []) /\
  PyDict.get s2 (b_sessions st') = None /\ b_ws_session st' = None /\
  out = (start_streaming_msgs s1 u1 ++ start_streaming_msgs s2 u2)%list.
Proof.
  intros L1 L2 I1 I2 n u1 s1 u2 s2 Hne.
  unfold bridge_handle_client; cbn [bridge_loop]; rewrite L1, (init_message _ _ _ _ _ I1).
  unfold _initialize_session at 1; cbn [b_counter b_sessions b_ws_session bridge_loop].
  fold n u1 s1; rewrite L2, (init_message _ _ _ _ _ I2).
  unfold _initialize_session; cbn [b_counter b_sessions b_ws_session bridge_loop].
  fold u2 s2.
  unfold _cleanup_session; cbn [b_sessions b_counter].
  rewrite PyDictFacts.get_set_eq; cbn [b_sessions].
  split; [rewrite PyDictFacts.get_del_neq by exact Hne;
          rewrite PyDictFacts.get_set_neq by exact Hne; apply PyDictFacts.get_set_eq|].
  split; [apply PyDictFacts.get_del_eq|]; split; [reflexivity|].
  rewrite !app_nil_r; reflexivity.
Qed.

Lemma reinitialize_leaks_first_session_witness :
  toy_session_id (JStr "user_a") 0 <> toy_session_id (JStr "user_b") 1 /\
  PyDict.get "auto_voice_voice_"
    (b_sessions (fst (bridge_handle_client toy_user_id toy_session_id toy_b64 toy_frame_loads
                        empty_bridge [Text "init"; Text "init"]))) =
  Some (mk_voice_session "auto_voice_voice_" (JStr "user_a") true []).
Proof.
  assert (Hne : toy_session_id (JStr "user_a") 0 <> toy_session_id (JStr "user_b") 1) by discriminate.
  split; [exact Hne|].
  pose proof (reinitialize_leaks_first_session toy_user_id toy_session_id toy_b64 toy_frame_loads
                empty_bridge (Text "init") (Text "init") _ _ eq_refl eq_refl eq_refl eq_refl) as A.
  cbv zeta in A; specialize (A Hne).
  destruct (bridge_handle_client toy_user_id toy_session_id toy_b64 toy_frame_loads
              empty_bridge [Text "init"; Text "init"]) as [st' out].
  exact (proj1 A).
Defined.

(** A frame that is valid JSON but not an object makes [data.get] raise
    inside [_handle_message]; the exception leaves the receive loop, so
    the frames after it are never processed, and the [finally] cleans up
    the connection's session while the socket is still open, which sends
    [session_stopped]. *)
Theorem non_object_frame_ends_connection gen_user_id gen_session_id b64decode loads
    (st : bridge) (pre rest : list frame) (f : frame) (j : json) :
  (let '(_, _, t) := bridge_loop bridge loads (_handle_message gen_user_id gen_session_id b64decode) st pre in
   t = false) ->
  loads f = Loaded j -> (forall fs, j <> JObj fs) ->
  bridge_handle_client gen_user_id gen_session_id b64decode loads st (pre ++ f :: rest) =
  let '(st1, o1, _) := bridge_loop bridge loads (_handle_message gen_user_id gen_session_id b64decode) st pre in
  match b_ws_session st1 with
  | Some sid =>
      let (st2, o2) := _cleanup_session st1 sid true in (st2, (o1 ++ o2)%list)
  | None => (st1, o1)
  end.
Proof.
  intros Ht Hl Hj.
  unfold bridge_handle_client.
  pose proof (ServerClaims.bridge_loop_app bridge loads
                (_handle_message gen_user_id gen_session_id b64decode) st pre (f :: rest)) as A.
  destruct (bridge_loop bridge loads (_handle_message gen_user_id gen_session_id b64decode) st pre)
    as [[st1 o1] t1].
  rewrite (A Ht); cbn [bridge_loop]; rewrite Hl.
  assert (N : _handle_message gen_user_id gen_session_id b64decode st1 j = None)
    by (destruct j as [| | | | |fs]; [reflexivity..|exfalso; exact (Hj fs eq_refl)]).
  rewrite N, app_nil_r; reflexivity.
Qed.

Lemma non_object_frame_ends_connection_witness :
  bridge_handle_client toy_user_id toy_session_id toy_b64 toy_frame_loads empty_bridge
    [Text "init"; Text "five"; Text "init"] =
  (mk_bridge [] None 1,
   (start_streaming_msgs "auto_voice_voice_" (JStr "user_a") ++
    [msg "session_stopped" [("session_id", JStr "auto_voice_voice_")]])%list).
Proof.
  change [Text "init"; Text "five"; Text "init"] with ([Text "init"] ++ Text "five" :: [Text "init"])%list.
  rewrite (non_object_frame_ends_connection toy_user_id toy_session_id toy_b64 toy_frame_loads
             empty_bridge [Text "init"] [Text "init"] (Text "five") (JNum 5)
             eq_refl eq_refl ltac:(discriminate)).
  reflexivity.
Defined.

(** On a connection without a session, a message without a [type] (the
    legacy audio format) whose [data] decodes creates a session with the
    default user id, starts it and forwards the audio to it; a typed
    [audio_data] message on such a connection is only answered with "No
    active session" and changes nothing. *)
Theorem legacy_audio_autocreates_session gen_user_id gen_session_id b64decode
    (st : bridge) (f : list (string * json)) (a : json) (audio : list Byte.byte) :
  b_ws_session st = None ->
  PyDict.get "type" f = None -> PyDict.get "data" f = Some a -> json_truthy a = true ->
  b64decode a = inl audio ->
  let n := b_counter st in
  let user := JStr ("user_" ++ gen_user_id n) in
  let sid := gen_session_id user n in
  truthy sid = true ->
  _handle_message gen_user_id gen_session_id b64decode st (JObj f) =
  Some (mk_bridge (PyDict.set sid (mk_voice_session sid user true [audio]) (b_sessions st))
                  (Some sid) (S n),
        start_streaming_msgs sid user) /\
  _handle_message gen_user_id gen_session_id b64decode st
    (JObj [("type", JStr "audio_data"); ("audio_data", a)]) =
  Some (st, [BridgeError "No active session"]).
Proof.
  intros Hw Ht Hd Ha Hb n user sid Hs; split.
  - unfold _handle_message; rewrite Ht; cbn [json_truthy negb].
    unfold _handle_audio_data; rewrite Hw.
    unfold _initialize_session; cbn [PyDict.get init_user_id]; fold n user sid.
    unfold forward_audio; cbn [b_ws_session b_sessions b_counter]; rewrite Hs.
    rewrite PyDictFacts.get_set_eq, Hd, Ha, Hb; cbn [process_audio vs_is_active].
    rewrite DictLemmas.set_set; reflexivity.
  - unfold _handle_message; cbn -[_handle_audio_message].
    unfold _handle_audio_message, forward_audio; rewrite Hw; reflexivity.
Qed.

Lemma legacy_audio_autocreates_session_witness :
  _handle_message toy_user_id toy_session_id toy_b64 empty_bridge (JObj [("data", JStr "AAE=")]) =
  Some (mk_bridge [("auto_voice_voice_",
                    mk_voice_session "auto_voice_voice_" (JStr "user_a") true [[Byte.x00; Byte.x01]])]
                  (Some "auto_voice_voice_") 1,
        start_streaming_msgs "auto_voice_voice_" (JStr "user_a")).
Proof.
  pose proof (legacy_audio_autocreates_session toy_user_id toy_session_id toy_b64 empty_bridge
                [("data", JStr "AAE=")] (JStr "AAE=") [Byte.x00; Byte.x01]
                eq_refl eq_refl eq_refl eq_refl eq_refl) as A.
  cbv zeta in A; exact (proj1 (A eq_refl)).
Defined.

End BridgeExtras.

Module ConsolidatorExtras.
Import UnifiedVoiceServer ConsolidatorOutput ConsolidatorAux.

Lemma transcripts_app (o1 o2 : list (Z * uout)) :
  transcripts (o1 ++ o2) = (transcripts o1 ++ transcripts o2)%list.
Proof.
  induction o1 as [|[t u] o1 IH]; [reflexivity|].
  destruct u; simpl; rewrite IH; reflexivity.
Qed.

(** Upstream inputs send no transcript. *)
Lemma handle_part_quiet s now p : transcripts (snd (handle_part s now p)) = [].
Proof.
  destruct p as [t|d|]; simpl; [|reflexivity..].
  destruct (ADKLiveHandler.truthy t); [|reflexivity].
  destruct (Nat.ltb (String.length (py_strip t)) 2); reflexivity.
Qed.

Lemma handle_parts_quiet s now ps : transcripts (snd (handle_parts s now ps)) = [].
Proof.
  revert s; induction ps as [|p ps IH]; intros s; simpl; [reflexivity|].
  pose proof (handle_part_quiet s now p) as T1.
  destruct (handle_part s now p) as [s1 o1]; simpl in T1.
  pose proof (IH s1) as T2.
  destruct (handle_parts s1 now ps) as [s2 o2]; simpl in T2 |- *.
  rewrite transcripts_app, T1, T2; reflexivity.
Qed.

Lemma handle_input_quiet s now i : transcripts (snd (handle_input s now i)) = [].
Proof.
  destruct i as [ev|]; simpl; [|reflexivity].
  unfold handle_event.
  pose proof (handle_parts_quiet s now (ev_parts ev)) as T.
  destruct (handle_parts s now (ev_parts ev)) as [s1 o1]; simpl in T |- *.
  rewrite !transcripts_app, T.
  destruct (ev_turn_complete ev), (ev_interrupted ev); reflexivity.
Qed.

(* Where the sent texts come from. *)

Lemma buffer_from_incl s S S' : buffer_from s S -> incl S S' -> buffer_from s S'.
Proof. destruct s as [sd|]; simpl; auto. Qed.

Lemma select_candidate_in buf x :
  select_candidate buf = Some x -> exists c, In c buf /\ c_text c = x.
Proof.
  unfold select_candidate.
  destruct (py_max (fun c => Z.of_nat (c_length c)) buf) as [m|] eqn:M; [|discriminate].
  destruct (ConsolidatorClaims.py_max_spec _ _ _ M) as [Hm _].
  destruct (py_max c_timestamp (filter (fun c => Nat.ltb 50 (c_length c)) buf)) as [r|] eqn:R.
  - destruct (ConsolidatorClaims.py_max_spec _ _ _ R) as [Hr _].
    apply filter_In in Hr as [Hr _].
    destruct (Nat.leb _ _); intros [= <-]; eexists; split; [exact Hr|reflexivity|exact Hm|reflexivity].
  - intros [= <-]; exists m; split; [exact Hm|reflexivity].
Qed.

Lemma fire_due_from s t S :
  buffer_from s S ->
  incl (transcripts (snd (fire_due s t))) S /\ buffer_from (fst (fire_due s t)) S.
Proof.
  intros H; destruct s as [sd|]; [|split; simpl; [intros x []|auto]].
  unfold fire_due.
  destruct (consolidation_timer sd) as [d|]; [|split; simpl; [intros x []|auto]].
  destruct (d <=? t)%Z; [|split; simpl; [intros x []|auto]].
  unfold consolidate_and_send.
  destruct (select_candidate (transcript_buffer sd)) as [x|] eqn:C;
    [|split; simpl; [intros y []|auto]].
  destruct (String.eqb x (last_transcript sd)); [split; simpl; [intros y []|intros c []]|].
  destruct (ADKLiveHandler.truthy (last_transcript sd) && contains (last_transcript sd) x);
    [split; simpl; [intros y []|intros c []]|].
  split; simpl; [|intros c []].
  destruct (select_candidate_in _ _ C) as [c [Hc <-]].
  intros y [<-|[]]; exact (H c Hc).
Qed.

Lemma handle_part_from s now p S :
  buffer_from s S -> buffer_from (fst (handle_part s now p)) (S ++ part_texts p).
Proof.
  intros H.
  assert (M : buffer_from s (S ++ part_texts p))
    by (apply (buffer_from_incl s S); [exact H|intros y Hy; apply in_or_app; left; exact Hy]).
  destruct p as [t|d|]; simpl; [|exact M..].
  destruct (ADKLiveHandler.truthy t); [|exact M].
  destruct (Nat.ltb (String.length (py_strip t)) 2); [exact M|].
  destruct s as [sd|]; simpl; [|auto].
  intros c Hc; apply filter_In in Hc as [Hc _].
  apply in_app_or in Hc as [Hc|[<-|[]]]; apply in_or_app; [left; exact (H c Hc)|right; left; reflexivity].
Qed.

Lemma handle_parts_from s now ps S :
  buffer_from s S -> buffer_from (fst (handle_parts s now ps)) (S ++ flat_map part_texts ps).
Proof.
  revert s S; induction ps as [|p ps IH]; intros s S H; simpl.
  - rewrite app_nil_r; exact H.
  - pose proof (handle_part_from s now p S H) as H1.
    destruct (handle_part s now p) as [s1 o1]; simpl in H1.
    pose proof (IH s1 _ H1) as H2.
    destruct (handle_parts s1 now ps) as [s2 o2]; simpl in H2 |- *.
    rewrite app_assoc; exact H2.
Qed.

Lemma handle_input_from s now i S :
  buffer_from s S -> buffer_from (fst (handle_input s now i)) (S ++ input_texts i).
Proof.
  intros H; destruct i as [ev|]; simpl; [|auto].
  unfold handle_event.
  pose proof (handle_parts_from s now (ev_parts ev) S H) as H1.
  destruct (handle_parts s now (ev_parts ev)) as [s1 o1]; exact H1.
Qed.

Lemma run_from l : forall s S,
  buffer_from s S ->
  incl (transcripts (snd (run s l))) (S ++ received_texts l) /\
  buffer_from (fst (run s l)) (S ++ received_texts l).
Proof.
  induction l as [|[t i] l IH]; intros s S H; simpl.
  - rewrite app_nil_r; split; [intros x []|exact H].
  - change (received_texts ((t, i) :: l)) with (input_texts i ++ received_texts l)%list.
    unfold step.
    pose proof (fire_due_from s t S H) as [T1 B1].
    destruct (fire_due s t) as [s1 o1]; simpl in T1, B1.
    pose proof (handle_input_from s1 t i S B1) as B2.
    pose proof (handle_input_quiet s1 t i) as T2.
    destruct (handle_input s1 t i) as [s2 o2]; simpl in B2, T2.
    pose proof (IH s2 _ B2) as [T3 B3].
    destruct (run s2 l) as [s3 o3]; simpl in T3, B3 |- *.
    rewrite <- app_assoc in T3, B3.
    split; [|exact B3].
    rewrite !transcripts_app, T2, app_nil_r.
    apply incl_app; [|exact T3].
    intros x Hx; apply in_or_app; left; exact (T1 x Hx).
Qed.

Lemma quiesce_from s S :
  buffer_from s S -> incl (transcripts (snd (quiesce s))) S /\ buffer_from (fst (quiesce s)) S.
Proof.
  intros H; destruct s as [sd|]; [|split; simpl; [intros x []|auto]].
  unfold quiesce; destruct (consolidation_timer sd) as [d|]; [|split; simpl; [intros x []|exact H]].
  apply fire_due_from; exact H.
Qed.

(** Every transcript the session sends is the stripped text of a text
    part it received upstream: the consolidator picks one of the buffered
    texts and never builds a new one. *)
Theorem transcripts_are_received (t0 : Z) (l : list (Z * uinput)) :
  incl (transcripts (snd (run_all (fresh_session t0) l))) (received_texts l).
Proof.
  unfold run_all.
  pose proof (run_from l (fresh_session t0) [] (fun c (Hc : In c []) => match Hc with end)) as [T1 B1].
  destruct (run (fresh_session t0) l) as [s1 o1]; simpl in T1, B1.
  pose proof (quiesce_from s1 _ B1) as [T2 _].
  destruct (quiesce s1) as [s2 o2]; simpl in T2 |- *.
  rewrite transcripts_app; apply incl_app; assumption.
Qed.

End ConsolidatorExtras.
